(** * Budget planner of trip-mentor: the category rebalancing and its derived reads

    Source: [src/trip-mentor/src/components/BudgetPlanner.tsx].

    The component keeps its data in React state cells ([useState]).  An event
    handler is a closure over the values those cells had at the render that
    created it; calling a setter does not change what the closure sees, it
    queues a replacement of the cell.  When the handler returns, the queued
    replacements are applied in the order of the calls, so for one cell the
    last call decides.  The handlers below are therefore functions from the
    rendered state to the list of setter calls they make, and [step] commits
    that list.

    Objects.  [Array.map] returns the object it was given wherever the
    callback returns its argument, so an array built by the handler can share
    objects with the [categories] array of the render; line 147 updates one
    object in place.  [slot] records which elements of the handler's array are
    shared, and [closure_view] gives the render's array as the handler leaves
    it.

    Numbers.  Every number stored in the state is an integer (results of
    [parseInt] and [Math.round], and the seeded percentages), modelled in [Z].
    The roundings of lines 72, 131 and 162 are computed as the source computes
    them, in IEEE 754 binary64 ([Double], over [SpecFloat] of the Standard
    Library): the quotient and the product are each rounded to a double before
    [Math.round], rounding to the nearest integer with ties upwards, is
    applied; 35 per cent of 90 is 31 that way, and not 32.  Sums of
    percentages are taken in [Z]; they are those of doubles as long as the
    values stay below 2^53 in magnitude, and statements about requests of any
    size carry that bound.  The per-day figure and the tier reads divide
    exactly, in [Q]; a division whose divisor can be zero uses [num], which
    adds the infinities and NaN that JavaScript produces there. *)

From Stdlib Require Import ZArith QArith Qround List String Bool Lia.
From Stdlib Require Import Ascii SpecFloat.
Import ListNotations.
Open Scope Z_scope.

(** ** JavaScript numbers *)

Module Js.

(** [Math.round x]: floor of [x + 0.5]. *)
Definition Math_round (x : Q) : Z := Qfloor (x + (1 # 2)).

(** [v || d] for a number [v], where [None] is NaN: zero and NaN are falsy. *)
Definition or_else (v : option Z) (d : Z) : Z :=
  match v with
  | None => d
  | Some 0 => d
  | Some z => z
  end.

(** Results of a division that may have a zero divisor. *)
Inductive num : Type :=
| Fin (q : Q)
| PosInf
| NegInf
| NaN.

(** [x / d] for a finite [x] and an integer [d]. *)
Definition div (x : Q) (d : Z) : num :=
  if d =? 0 then
    match Qcompare x 0 with
    | Gt => PosInf
    | Lt => NegInf
    | Eq => NaN
    end
  else Fin (x / inject_Z d).

(** [x / r] for a positive constant [r]. *)
Definition div_const (x : num) (r : Q) : num :=
  match x with
  | Fin q => Fin (q / r)
  | other => other
  end.

Definition round (x : num) : num :=
  match x with
  | Fin q => Fin (inject_Z (Math_round q))
  | other => other
  end.

Definition Qltb (x y : Q) : bool := negb (Qle_bool y x).

(** [x < k]; every comparison with NaN is false. *)
Definition ltb (x : num) (k : Z) : bool :=
  match x with
  | Fin q => Qltb q (inject_Z k)
  | NegInf => true
  | PosInf => false
  | NaN => false
  end.

(** [x > k]. *)
Definition gtb (x : num) (k : Z) : bool :=
  match x with
  | Fin q => Qltb (inject_Z k) q
  | PosInf => true
  | NegInf => false
  | NaN => false
  end.

End Js.

Import Js.

(** ** Doubles *)

Module Double.

(** A number that takes part in a product or a quotient whose rounding is
    stored: an IEEE 754 binary64 value, with the operations of the standard
    (round to nearest, ties to even). *)
Definition double : Type := spec_float.

(** The double of an integer, exact up to 2^53 in magnitude. *)
Definition of_Z (z : Z) : double := binary_normalize 53 1024 z 0 false.

Definition add : double -> double -> double := SFadd 53 1024.

Definition mul : double -> double -> double := SFmul 53 1024.

Definition div : double -> double -> double := SFdiv 53 1024.

(** The number a double stands for. *)
Definition value (x : double) : num :=
  match x with
  | S754_zero _ => Fin 0
  | S754_finite s m e =>
      let v :=
        if 0 <=? e then inject_Z (Zpos m * 2 ^ e)
        else Zpos m # Z.to_pos (2 ^ (- e)) in
      Fin (if s then - v else v)
  | S754_infinity s => if s then NegInf else PosInf
  | S754_nan => NaN
  end.

(** [Math.round x] as an integer: the nearest integer to the value of [x],
    the upper one at a tie.  [Math.round] returns Infinity and NaN as they
    are; they have no integer and read 0 here, which only a product of more
    than 300 digits can reach. *)
Definition Math_round (x : double) : Z :=
  match value x with
  | Fin q => Js.Math_round q
  | _ => 0
  end.

End Double.

(** ** Data (lines 5-36) *)

Record BudgetCategory : Type := mkCategory {
  id : string;
  name : string;
  amount : Z;
  percentage : Z
}.

Inductive CurrencyCode : Type := USD | INR.

(** [exchangeRates.INR], 83.14 (line 61). *)
Definition exchangeRates_INR : Q := 8314 # 100.

(** The state cells of the component that the budget logic reads or writes
    (lines 39-50). *)
Record State : Type := mkState {
  totalBudget : Z;
  duration : Z;
  currency : CurrencyCode;
  categories : list BudgetCategory
}.

(** The seeded categories (lines 43-50). *)
Definition seed : list BudgetCategory :=
  [ mkCategory "1" "Accommodation" 0 35;
    mkCategory "2" "Food & Drinks" 0 25;
    mkCategory "3" "Transportation" 0 15;
    mkCategory "4" "Activities" 0 15;
    mkCategory "5" "Shopping" 0 5;
    mkCategory "6" "Miscellaneous" 0 5 ].

Definition initial : State :=
  {| totalBudget := 0; duration := 7; currency := USD; categories := seed |}.

(** ** Setter calls and their commit *)

Inductive setter : Type :=
| SetTotalBudget (v : Z)
| SetDuration (v : Z)
| SetCurrency (c : CurrencyCode)
| SetCategories (cs : list BudgetCategory).

Definition apply_setter (st : State) (s : setter) : State :=
  match s with
  | SetTotalBudget v =>
      {| totalBudget := v; duration := duration st;
         currency := currency st; categories := categories st |}
  | SetDuration v =>
      {| totalBudget := totalBudget st; duration := v;
         currency := currency st; categories := categories st |}
  | SetCurrency c =>
      {| totalBudget := totalBudget st; duration := duration st;
         currency := c; categories := categories st |}
  | SetCategories cs =>
      {| totalBudget := totalBudget st; duration := duration st;
         currency := currency st; categories := cs |}
  end.

Definition commit (st : State) (calls : list setter) : State :=
  fold_left apply_setter calls st.

(** ** Amounts from percentages (lines 68-79) *)

Definition with_amount (c : BudgetCategory) (a : Z) : BudgetCategory :=
  {| id := id c; name := name c; amount := a; percentage := percentage c |}.

Definition with_percentage (c : BudgetCategory) (p : Z) : BudgetCategory :=
  {| id := id c; name := name c; amount := amount c; percentage := p |}.

(** [Math.round((category.percentage / 100) * budget)] (line 72): the
    quotient and the product are those of doubles. *)
Definition amount_of (p budget : Z) : Z :=
  Double.Math_round
    (Double.mul (Double.div (Double.of_Z p) (Double.of_Z 100))
       (Double.of_Z budget)).

(** [updateCategoryAmounts]: [cs] is the [categories] array of the render the
    function was created in, with the contents its objects have at the time of
    the call. *)
Definition updateCategoryAmounts (cs : list BudgetCategory) (budget : Z)
  : list setter :=
  [ SetCategories
      (map (fun category =>
              with_amount category (amount_of (percentage category) budget))
           cs) ].

(** ** Handlers for budget, currency and duration (lines 82-98) *)

(** The argument of [handleBudgetChange] and [handleDurationChange] is the
    result of [parseInt(e.target.value)], [None] standing for NaN. *)
Definition handleBudgetChange (st : State) (parsed : option Z) : list setter :=
  let value := or_else parsed 0 in
  SetTotalBudget value :: updateCategoryAmounts (categories st) value.

Definition handleCurrencyChange (st : State) (c : CurrencyCode) : list setter :=
  [ SetCurrency c ].

Definition handleDurationChange (st : State) (parsed : option Z) : list setter :=
  let value := or_else parsed 1 in
  [ SetDuration value ].

(** ** The percentage handler (lines 101-154) *)

(** An element of [updatedCategories].  [aliased] tells whether the element is
    the very object that the render's [categories] array holds at the same
    index (the [map] of line 103 and the one of line 123 return the object
    they were given for the categories they leave alone), or a copy made by
    an object spread. *)
Record slot : Type := mkSlot {
  aliased : bool;
  cat : BudgetCategory
}.

Definition is_edited (target : string) (c : BudgetCategory) : bool :=
  String.eqb (id c) target.

(** [reduce((sum, cat) => sum + cat.percentage, 0)].  The sum is taken in
    [Z]; it is the sum of the doubles while the percentages and their partial
    sums stay below 2^53 in magnitude. *)
Definition total_percentage (l : list BudgetCategory) : Z :=
  fold_left (fun sum c => sum + percentage c) l 0.

(** Lines 103-107: the edited category gets the requested percentage. *)
Definition assignPercentage (target : string) (newPercentage : Z)
    (cs : list BudgetCategory) : list slot :=
  map (fun category =>
         if is_edited target category
         then mkSlot false (with_percentage category newPercentage)
         else mkSlot true category)
      cs.

(** Lines 130-131:
    [Math.max(0, Math.round(percentage + adjustment * (percentage / otherCategoriesTotal)))]. *)
Definition proportional (p adjustment otherCategoriesTotal : Z) : Z :=
  let adjustmentRatio :=
    Double.div (Double.of_Z p) (Double.of_Z otherCategoriesTotal) in
  Z.max 0
    (Double.Math_round
       (Double.add (Double.of_Z p)
          (Double.mul (Double.of_Z adjustment) adjustmentRatio))).

(** Lines 113-139. *)
Definition adjustOthers (target : string) (updated : list slot) : list slot :=
  let totalPercentage := total_percentage (map cat updated) in
  if totalPercentage =? 100 then updated
  else
    let adjustment := 100 - totalPercentage in
    let categoriesToAdjust :=
      filter (fun c => negb (is_edited target c)) (map cat updated) in
    match categoriesToAdjust with
    | [] => updated
    | _ :: _ =>
        let otherCategoriesTotal := total_percentage categoriesToAdjust in
        map (fun s =>
               if is_edited target (cat s) then s
               else if otherCategoriesTotal =? 0 then s
               else mkSlot false
                      (with_percentage (cat s)
                         (proportional (percentage (cat s)) adjustment
                            otherCategoriesTotal)))
            updated
    end.

(** [category.percentage += d], on the object itself. *)
Definition bump (d : Z) (s : slot) : slot :=
  mkSlot (aliased s) (with_percentage (cat s) (percentage (cat s) + d)).

(** The object found by [find(cat => cat.id !== id)] gets [d]. *)
Fixpoint bumpFirstOther (target : string) (d : Z) (l : list slot)
  : option (list slot) :=
  match l with
  | [] => None
  | s :: rest =>
      if is_edited target (cat s)
      then option_map (cons s) (bumpFirstOther target d rest)
      else Some (bump d s :: rest)
  end.

(** Lines 142-149. *)
Definition fixResidual (target : string) (updated : list slot) : list slot :=
  let finalTotal := total_percentage (map cat updated) in
  if finalTotal =? 100 then updated
  else
    match bumpFirstOther target (100 - finalTotal) updated with
    | Some l => l
    | None =>
        match updated with
        | [] => []
        | s :: rest => bump (100 - finalTotal) s :: rest
        end
    end.

(** The array [updatedCategories] as line 151 passes it to [setCategories]. *)
Definition rebalance (target : string) (newPercentage : Z)
    (cs : list BudgetCategory) : list slot :=
  fixResidual target (adjustOthers target (assignPercentage target newPercentage cs)).

(** The render's [categories] array after the handler has run: an object that
    [updatedCategories] shares with it carries whatever line 147 did to it. *)
Fixpoint closure_view (cs : list BudgetCategory) (updated : list slot)
  : list BudgetCategory :=
  match cs, updated with
  | c :: cs', s :: updated' =>
      (if aliased s then cat s else c) :: closure_view cs' updated'
  | _, _ => cs
  end.

(** [handlePercentageChange]: line 151 queues the rebalanced array, then
    line 153 runs [updateCategoryAmounts], which maps the render's
    [categories] (line 70) and queues the result (line 78). *)
Definition handlePercentageChange (st : State) (target : string)
    (newPercentage : Z) : list setter :=
  let updatedCategories := rebalance target newPercentage (categories st) in
  SetCategories (map cat updatedCategories)
  :: updateCategoryAmounts
       (closure_view (categories st) updatedCategories) (totalBudget st).

(** Line 162: [Math.round((newAmount / totalBudget) * 100)], the quotient and
    the product those of doubles. *)
Definition percentage_of_amount (newAmount totalBudget : Z) : Z :=
  Double.Math_round
    (Double.mul (Double.div (Double.of_Z newAmount) (Double.of_Z totalBudget))
       (Double.of_Z 100)).

(** [handleAmountChange] (lines 157-166). *)
Definition handleAmountChange (st : State) (target : string) (newAmount : Z)
  : list setter :=
  if totalBudget st <=? 0 then []
  else
    let newPercentage := percentage_of_amount newAmount (totalBudget st) in
    handlePercentageChange st target newPercentage.

(** ** Events

    A parsed field is the integer that [parseInt] returned, a finite double
    (a number field reads as the empty text when what was typed is no finite
    double), or [None] for NaN. *)

Inductive event : Type :=
| BudgetChange (parsed : option Z)
| CurrencyChange (c : CurrencyCode)
| DurationChange (parsed : option Z)
| PercentageChange (target : string) (newPercentage : Z)
| AmountChange (target : string) (newAmount : Z).

Definition handler (st : State) (e : event) : list setter :=
  match e with
  | BudgetChange v => handleBudgetChange st v
  | CurrencyChange c => handleCurrencyChange st c
  | DurationChange v => handleDurationChange st v
  | PercentageChange t p => handlePercentageChange st t p
  | AmountChange t a => handleAmountChange st t a
  end.

(** One event: the handler of the current render runs, its setter calls are
    committed. *)
Definition step (st : State) (e : event) : State := commit st (handler st e).

Definition run (st : State) (es : list event) : State := fold_left step es st.

Definition percentages (st : State) : list Z := map percentage (categories st).

(** ** Callers in the rendered form (lines 553, 568-587) *)

(** The [-] and [+] buttons of a category. *)
Definition minusButton (category : BudgetCategory) : event :=
  PercentageChange (id category) (Z.max 5 (percentage category - 5)).

Definition plusButton (category : BudgetCategory) : event :=
  PercentageChange (id category) (Z.min 60 (percentage category + 5)).

(** The amount field: [parseInt(e.target.value) || 0]. *)
Definition amountInput (category : BudgetCategory) (parsed : option Z) : event :=
  AmountChange (id category) (or_else parsed 0).

(** ** The per-day line (lines 592-596) *)


(** ** Budget level of a category (lines 169-201) *)

Record Thresholds : Type := mkThresholds { low : Z; high : Z }.

Record Indicator : Type := mkIndicator {
  level : string;
  color : string;
  text : string
}.

Definition thresholdsFor (category : string) : Thresholds :=
  if String.eqb category "Accommodation" then mkThresholds 50 150
  else if String.eqb category "Food & Drinks" then mkThresholds 30 100
  else if String.eqb category "Transportation" then mkThresholds 10 50
  else if String.eqb category "Activities" then mkThresholds 20 80
  else mkThresholds 15 50.

(** Lines 171-172. *)
Definition dailyAmount (st : State) (amount : Z) : num :=
  let amountUSD :=
    match currency st with
    | INR => (inject_Z amount / exchangeRates_INR)%Q
    | USD => inject_Z amount
    end in
  div amountUSD (duration st).

Definition getBudgetLevelIndicator (st : State) (amount : Z)
    (category : string) : Indicator :=
  let thresholds := thresholdsFor category in
  if ltb (dailyAmount st amount) (low thresholds)
  then mkIndicator "low" "text-yellow-600" "Budget"
  else if gtb (dailyAmount st amount) (high thresholds)
  then mkIndicator "high" "text-green-600" "Luxury"
  else mkIndicator "medium" "text-blue-600" "Standard".

(** ** Affordable places (lines 204-319) *)

Record Place : Type := mkPlace {
  place_id : string;
  place_name : string;
  place_type : string;
  rating : Q;
  description : string;
  imageUrl : string;
  price_level : option Z;
  vicinity : option string
}.

(** [categories.find(c => c.name === 'Activities')?.amount || 0]. *)
Definition activitiesBudget (st : State) : Z :=
  or_else
    (option_map amount
       (find (fun c => String.eqb (name c) "Activities") (categories st)))
    0.

(** Lines 213-224, and again lines 258-268. *)
Definition affordablePriceLevel (st : State) : Z :=
  let dailyActivitiesBudget :=
    round (div (inject_Z (activitiesBudget st)) (duration st)) in
  let dailyActivitiesBudgetUSD :=
    match currency st with
    | INR => round (div_const dailyActivitiesBudget exchangeRates_INR)
    | USD => dailyActivitiesBudget
    end in
  if ltb dailyActivitiesBudgetUSD 30 then 1
  else if ltb dailyActivitiesBudgetUSD 60 then 2
  else 3.

(** The filter of [fetchSuggestedPlaces] (lines 236-240). *)
Definition isAffordable (st : State) (place : Place) : bool :=
  let priceLevel :=
    match price_level place with
    | Some v => v
    | None => 0
    end in
  priceLevel <=? affordablePriceLevel st.

(** What [fetchSuggestedPlaces] stores for a response carrying [attractions]. *)
Definition filteredPlaces (st : State) (attractions : list Place) : list Place :=
  filter (isAffordable st) attractions.

(** The filter of [generateFallbackPlaces] (lines 315-317). *)
Definition isAffordableSample (st : State) (place : Place) : bool :=
  match price_level place with
  | Some v => v <=? affordablePriceLevel st
  | None => false
  end.

(** ** The plan button (lines 322-345, 418) *)

(** The keys of [recommendationsByBudget]. *)
Inductive BudgetLevel : Type := LowBudget | MediumBudget | HighBudget.

(** Lines 336-338. *)
Definition totalBudgetUSD (st : State) : Z :=
  match currency st with
  | INR => Math_round (inject_Z (totalBudget st) / exchangeRates_INR)
  | USD => totalBudget st
  end.

(** Line 344. *)
Definition budgetLevel (st : State) : BudgetLevel :=
  if totalBudgetUSD st <? 1000 then LowBudget
  else if totalBudgetUSD st <? 3000 then MediumBudget
  else HighBudget.

(** [generatePlan], as far as the choice of the stored list goes: [None] when
    line 323 returns ([!totalBudget || !location]), else the key whose list
    line 418 stores.  The state is the one of the render in which the button
    was pressed. *)
Definition planLevel (st : State) (location : string) : option BudgetLevel :=
  if totalBudget st =? 0 then None
  else
    match location with
    | EmptyString => None
    | String _ _ => Some (budgetLevel st)
    end.

(** ** Sample places and the outcome of the request (lines 204-319) *)

(** [samplePlaces] (lines 271-312). *)
Definition samplePlaces (st : State) (destination : string) : list Place :=
  [ mkPlace "1" (destination ++ " Historic Center") "Landmark" (45 # 10)
      ("Free walking tour of the historic district of " ++ destination ++ ".")
      "https://images.unsplash.com/photo-1558086798-4805dc8df2ce?ixlib=rb-1.2.1&auto=format&fit=crop&w=1350&q=80"
      (Some 0) (Some ("Central " ++ destination)%string);
    mkPlace "2" (destination ++ " City Museum") "Museum" (43 # 10)
      ("Cultural museum showcasing the history of " ++ destination
       ++ ". Admission: "
       ++ match currency st with INR => "₹1,250" | USD => "$15" end
       ++ " per person.")
      "https://images.unsplash.com/photo-1566127992631-17596ed6b017?ixlib=rb-1.2.1&auto=format&fit=crop&w=1350&q=80"
      (Some 1) (Some ("Museum District, " ++ destination)%string);
    mkPlace "3" (destination ++ " Botanical Gardens") "Park" (44 # 10)
      ("Beautiful gardens with exotic plants and flowers. Entry fee: "
       ++ match currency st with INR => "₹2,080" | USD => "$25" end
       ++ " per person.")
      "https://images.unsplash.com/photo-1563299796-17596ed6b017?ixlib=rb-1.2.1&auto=format&fit=crop&w=1350&q=80"
      (Some 2) (Some ("North " ++ destination)%string);
    mkPlace "4" (destination ++ " Cultural Experience") "Activity" (47 # 10)
      ("Premium cultural experience with dinner and entertainment. Cost: "
       ++ match currency st with INR => "₹6,240" | USD => "$75" end
       ++ " per person.")
      "https://images.unsplash.com/photo-1555396273-367ea4eb4db5?ixlib=rb-1.2.1&auto=format&fit=crop&w=1350&q=80"
      (Some 3) (Some ("Downtown " ++ destination)%string) ].

(** What [generateFallbackPlaces] stores (lines 315-318). *)
Definition generateFallbackPlaces (st : State) (destination : string)
  : list Place :=
  filter (isAffordableSample st) (samplePlaces st destination).

(** How the request of line 227 ends: with a body that has no
    [attractions], with a body that has them, or with an exception. *)
Inductive response : Type :=
| NoAttractions
| Attractions (attractions : list Place)
| RequestFailed.

(** [fetchSuggestedPlaces]: the list it stores in [suggestedPlaces], [None]
    when it stores none (an empty destination, line 205, or a body without
    attractions, line 234). *)
Definition fetchSuggestedPlaces (st : State) (destination : string)
    (r : response) : option (list Place) :=
  match destination with
  | EmptyString => None
  | String _ _ =>
      match r with
      | NoAttractions => None
      | Attractions attractions => Some (filteredPlaces st attractions)
      | RequestFailed => Some (generateFallbackPlaces st destination)
      end
  end.

(** [formatPriceLevel] of the budget planner (lines 446-457). *)
Definition formatPriceLevel (st : State) (priceLevel : option Z) : string :=
  match priceLevel with
  | None => "Not available"
  | Some 0 => "Free"
  | Some 1 => match currency st with INR => "₹" | USD => "$" end
  | Some 2 => match currency st with INR => "₹₹" | USD => "$$" end
  | Some 3 => match currency st with INR => "₹₹₹" | USD => "$$$" end
  | Some 4 => match currency st with INR => "₹₹₹₹" | USD => "$$$$" end
  | Some _ => "Not available"
  end.

(** The price line of a suggested place (lines 688-692): rendered only for a
    defined price level. *)
Definition priceLine (st : State) (place : Place) : option string :=
  match price_level place with
  | None => None
  | Some v => Some (formatPriceLevel st (Some v))
  end.

(** ** The location explorer (second component of the file, lines 766-1083)

    Its strings are modelled byte by byte; [toLowerCase], [\s] and [trim] are
    the ASCII ones, which is what JavaScript does on a location typed in
    ASCII ([ascii_only]). *)

Module LocationExplorer.

Definition ascii_only (s : string) : bool :=
  forallb (fun c => Nat.ltb (nat_of_ascii c) 128) (list_ascii_of_string s).

(** One character of [toLowerCase]. *)
Definition lower (c : ascii) : ascii :=
  if Nat.leb 65 (nat_of_ascii c) && Nat.leb (nat_of_ascii c) 90
  then ascii_of_nat (nat_of_ascii c + 32)
  else c.

(** The class [\s]: tab, line feed, vertical tab, form feed, carriage return
    and space. *)
Definition isSpace (c : ascii) : bool :=
  Nat.eqb (nat_of_ascii c) 32
  || (Nat.leb 9 (nat_of_ascii c) && Nat.leb (nat_of_ascii c) 13).

Fixpoint toLowerCase (s : string) : string :=
  match s with
  | EmptyString => EmptyString
  | String c rest => String (lower c) (toLowerCase rest)
  end.

(** [replace(/\s+/g, '')]. *)
Fixpoint removeSpaces (s : string) : string :=
  match s with
  | EmptyString => EmptyString
  | String c rest =>
      if isSpace c then removeSpaces rest else String c (removeSpaces rest)
  end.

(** Line 880. *)
Definition normalize (locationName : string) : string :=
  removeSpaces (toLowerCase locationName).

(** [!location.trim()]: the text is empty once the white space at its ends
    is gone. *)
Fixpoint isBlank (s : string) : bool :=
  match s with
  | EmptyString => true
  | String c rest => isSpace c && isBlank rest
  end.

(** [mockPlacesData] (lines 778-845). *)
Definition mockPlacesData : list (string * list Place) :=
  [ ("paris"%string,
     [ mkPlace "1" "Eiffel Tower" "Landmark" (47 # 10)
         "Iconic iron tower offering views from various levels, including the summit. Entry costs around €17-26 per adult."
         "https://images.unsplash.com/photo-1543349689-9a4d426bee8e?ixlib=rb-1.2.1&auto=format&fit=crop&w=1350&q=80"
         (Some 3) (Some "Champ de Mars, 5 Avenue Anatole France, Paris"%string);
       mkPlace "2" "Louvre Museum" "Museum" (48 # 10)
         "World-famous art museum housing Leonardo da Vinci's Mona Lisa. Entry costs around €15-17 per adult."
         "https://images.unsplash.com/photo-1565788068403-947fb786fdf9?ixlib=rb-1.2.1&auto=format&fit=crop&w=1350&q=80"
         (Some 2) (Some "Rue de Rivoli, Paris"%string) ]);
    ("tokyo"%string,
     [ mkPlace "1" "Tokyo Skytree" "Landmark" (45 # 10)
         "Tall broadcasting and observation tower. Admission costs around ¥2,100-3,400 (US$15-25) per adult."
         "https://images.unsplash.com/photo-1558086798-4805dc8df2ce?ixlib=rb-1.2.1&auto=format&fit=crop&w=1350&q=80"
         (Some 3) (Some "1 Chome-1-2 Oshiage, Sumida City, Tokyo"%string);
       mkPlace "2" "Senso-ji Temple" "Religious Site" (46 # 10)
         "Ancient Buddhist temple with a five-story pagoda. Free entrance, with shopping street nearby."
         "https://images.unsplash.com/photo-1578321626705-c90de8a69c3b?ixlib=rb-1.2.1&auto=format&fit=crop&w=1350&q=80"
         (Some 0) (Some "2 Chome-3-1 Asakusa, Taito City, Tokyo"%string) ]);
    ("newyork"%string,
     [ mkPlace "1" "Empire State Building" "Landmark" (47 # 10)
         "Iconic 102-story skyscraper with observation decks. Entry costs around $42-79 per adult."
         "https://images.unsplash.com/photo-1546436836-07a91091f160?ixlib=rb-1.2.1&auto=format&fit=crop&w=1350&q=80"
         (Some 4) (Some "20 W 34th St, New York, NY"%string);
       mkPlace "2" "Central Park" "Park" (48 # 10)
         "Massive urban park with walking paths, lakes, and attractions. Free to visit, with some paid activities inside."
         "https://images.unsplash.com/photo-1570168324251-52424a29c10e?ixlib=rb-1.2.1&auto=format&fit=crop&w=1350&q=80"
         (Some 0) (Some "Central Park, New York, NY"%string) ]) ].

(** The [places] cell after a call of [setPlaces]: an array of places; or
    what it held before, when [setPlaces] is given a function, which the
    setter of [useState] applies to the previous value (the function [Object]
    returns an object as it is); or an object that is no array. *)
Inductive places_value : Type :=
| PlaceList (l : list Place)
| Previous
| NotAnArray.

Fixpoint ownProperty (key : string) (data : list (string * list Place))
  : option (list Place) :=
  match data with
  | [] => None
  | (k, v) :: rest => if String.eqb k key then Some v else ownProperty key rest
  end.

(** The places for any location that is not in the mock data
    (lines 886-917). *)
Definition genericPlaces (locationName : string) : list Place :=
  [ mkPlace "1" (locationName ++ " Historic Center") "Landmark" (43 # 10)
      ("The central historic district of " ++ locationName
       ++ ", featuring local shopping and dining. Estimated cost: Free to explore, attractions vary.")
      "https://images.unsplash.com/photo-1480714378408-67cf0d13bc1b?ixlib=rb-1.2.1&auto=format&fit=crop&w=1350&q=80"
      (Some 2) (Some ("Central " ++ locationName)%string);
    mkPlace "2" (locationName ++ " National Museum") "Museum" (42 # 10)
      ("Cultural museum showcasing the history and traditions of "
       ++ locationName ++ ". Estimated entry fee: $10-15 per adult.")
      "https://images.unsplash.com/photo-1566127992631-137a642a90f4?ixlib=rb-1.2.1&auto=format&fit=crop&w=1350&q=80"
      (Some 1) (Some ("Museum District, " ++ locationName)%string);
    mkPlace "3" (locationName ++ " Nature Park") "Park" (44 # 10)
      ("Beautiful natural area with walking trails and scenic views near "
       ++ locationName ++ ". Estimated cost: Free or minimal entrance fee.")
      "https://images.unsplash.com/photo-1563299796-17596ed6b017?ixlib=rb-1.2.1&auto=format&fit=crop&w=1350&q=80"
      (Some 0) (Some ("Northern " ++ locationName)%string) ].

(** The state cells that a search writes. *)
Record Explorer : Type := mkExplorer {
  places : places_value;
  destinationInfo : string;
  costLevel : string;
  error : option string
}.

(** [generateFallbackData] (lines 879-923), after line 869 has set the
    error.  [mockPlacesData[normalizedLocation]] also finds what the object
    inherits from [Object.prototype]; of those names only [constructor] (the
    function [Object]) and [__proto__] (the prototype object) are in lower
    case, so only they can be a key, and both are truthy. *)
Definition generateFallbackData (locationName : string) : Explorer :=
  let normalizedLocation := normalize locationName in
  {| places :=
       match ownProperty normalizedLocation mockPlacesData with
       | Some l => PlaceList l
       | None =>
           if String.eqb normalizedLocation "constructor" then Previous
           else if String.eqb normalizedLocation "__proto__" then NotAnArray
           else PlaceList (genericPlaces locationName)
       end;
     destinationInfo := locationName;
     costLevel := "Moderate";
     error := Some "Failed to fetch places. Using sample data instead."%string |}.

(** How the request of [fetchPlacesData] ends: with attractions, the name of
    the destination and the average cost, or in the [catch] branch (an
    exception, or a body without attractions). *)
Inductive outcome : Type :=
| Loaded (attractions : list Place) (destinationName averageCost : string)
| Caught.

Definition fetchPlacesData (locationName : string) (r : outcome) : Explorer :=
  match r with
  | Loaded attractions destinationName averageCost =>
      {| places := PlaceList attractions; destinationInfo := destinationName;
         costLevel := averageCost; error := None |}
  | Caught => generateFallbackData locationName
  end.

(** [handleSearch] (lines 925-931): [None] when it returns at the guard. *)
Definition handleSearch (location : string) (r : outcome) : option Explorer :=
  if isBlank location then None else Some (fetchPlacesData location r).

(** [formatPriceLevel] of the explorer (lines 934-945). *)
Definition formatPriceLevel (priceLevel : option Z) : string :=
  match priceLevel with
  | None => "Not available"
  | Some 0 => "Free"
  | Some 1 => "$"
  | Some 2 => "$$"
  | Some 3 => "$$$"
  | Some 4 => "$$$$"
  | Some _ => "Not available"
  end.

End LocationExplorer.

(** ** Notions used in the statements *)

Definition all_copies (l : list slot) : Prop :=
  Forall (fun s => aliased s = false) l.

(** Every aliased element still has the contents of the render's object. *)
Definition untouched (cs : list BudgetCategory) (l : list slot) : Prop :=
  Forall2 (fun c s => aliased s = true -> cat s = c) cs l.

Definition recomputed (budget : Z) (cs : list BudgetCategory)
  : list BudgetCategory :=
  map (fun c => with_amount c (amount_of (percentage c) budget)) cs.

(** Identity, label and share of each category, in order. *)
Definition shares (cs : list BudgetCategory) : list (string * string * Z) :=
  map (fun c => (id c, name c, percentage c)) cs.

(** The integers from [0] to [100]. *)
Definition hundred : list Z := map Z.of_nat (seq 0 101).

(** Every amount is the one its percentage and the total budget give. *)
Definition consistent (st : State) : Prop :=
  Forall (fun c => amount c = amount_of (percentage c) (totalBudget st))
         (categories st).

Definition nonnegative (l : list BudgetCategory) : bool :=
  forallb (fun c => 0 <=? percentage c) l.

(** The edited categories hold the request. *)
Definition request_kept (target : string) (p : Z) (l : list slot) : Prop :=
  Forall (fun s => is_edited target (cat s) = true -> percentage (cat s) = p) l.

(** The categories of an array whose percentage is below zero. *)
Definition negatives (l : list slot) : list BudgetCategory :=
  filter (fun c => percentage c <? 0) (map cat l).

(** * Properties *)

(** ** Sums of percentages *)

Lemma fold_percentage_acc (l : list BudgetCategory) (a : Z) :
  fold_left (fun sum c => sum + percentage c) l a
  = a + fold_left (fun sum c => sum + percentage c) l 0.
Proof.
  revert a; induction l as [|c l IH]; intro a; simpl.
  - lia.
  - rewrite IH, (IH (percentage c)). lia.
Qed.

Lemma total_percentage_cons (c : BudgetCategory) (l : list BudgetCategory) :
  total_percentage (c :: l) = percentage c + total_percentage l.
Proof.
  unfold total_percentage; simpl. now rewrite fold_percentage_acc.
Qed.

Lemma total_percentage_positive (l : list BudgetCategory) :
  Forall (fun c => 0 < percentage c) l -> l <> [] -> 0 < total_percentage l.
Proof.
  intros Hpos; induction Hpos as [|c l Hc Hl IH]; intro Hne.
  - contradiction.
  - rewrite total_percentage_cons. destruct l as [|c' l'].
    + unfold total_percentage; simpl; lia.
    + assert (0 < total_percentage (c' :: l')) by (apply IH; discriminate). lia.
Qed.

Lemma total_percentage_map (l : list BudgetCategory) :
  total_percentage l = fold_right Z.add 0 (map percentage l).
Proof.
  induction l as [|c l IH]; [reflexivity|].
  rewrite total_percentage_cons, IH. reflexivity.
Qed.

(** ** One call of the percentage handler *)

Lemma filter_nil_all {A : Type} (f : A -> bool) (l : list A) :
  filter f l = [] -> Forall (fun x => f x = false) l.
Proof.
  induction l as [|x l IH]; intro H; constructor; simpl in H;
    destruct (f x) eqn:E; try discriminate; auto.
Qed.

Section OneEdit.

(** The id the handler is called with. *)
Variable target : string.

(** *** The residual correction *)

Lemma bump_percentage (d : Z) (s : slot) :
  percentage (cat (bump d s)) = percentage (cat s) + d.
Proof. reflexivity. Qed.

Lemma bumpFirstOther_total (d : Z) (l l' : list slot) :
  bumpFirstOther target d l = Some l' ->
  total_percentage (map cat l') = total_percentage (map cat l) + d.
Proof.
  revert l'; induction l as [|s rest IH]; intros l' H; simpl in H.
  - discriminate.
  - destruct (is_edited target (cat s)).
    + destruct (bumpFirstOther target d rest) as [r|] eqn:E; simpl in H;
        [|discriminate].
      injection H as <-. simpl. rewrite !total_percentage_cons, (IH r eq_refl).
      lia.
    + injection H as <-. simpl. rewrite !total_percentage_cons. simpl. lia.
Qed.

Lemma fixResidual_total (l : list slot) :
  l <> [] -> total_percentage (map cat (fixResidual target l)) = 100.
Proof.
  intro Hne. unfold fixResidual.
  destruct (total_percentage (map cat l) =? 100) eqn:E.
  - now apply Z.eqb_eq.
  - destruct (bumpFirstOther target _ l) as [l'|] eqn:B.
    + rewrite (bumpFirstOther_total _ _ _ B). lia.
    + destruct l as [|s rest]; [contradiction|].
      rewrite !map_cons, !total_percentage_cons, bump_percentage. lia.
Qed.

Lemma adjustOthers_length (l : list slot) :
  List.length (adjustOthers target l) = List.length l.
Proof.
  unfold adjustOthers.
  destruct (_ =? 100); [reflexivity|].
  destruct (filter _ _); [reflexivity|].
  apply List.length_map.
Qed.

Lemma rebalance_nonempty (p : Z) (cs : list BudgetCategory) :
  cs <> [] -> adjustOthers target (assignPercentage target p cs) <> [].
Proof.
  intros Hne Habs. apply (f_equal (@List.length slot)) in Habs.
  rewrite adjustOthers_length in Habs. unfold assignPercentage in Habs.
  rewrite List.length_map in Habs. destruct cs; [contradiction|discriminate].
Qed.

(** The array that line 151 passes to [setCategories] sums to 100. *)
Lemma rebalance_total (p : Z) (cs : list BudgetCategory) :
  cs <> [] -> total_percentage (map cat (rebalance target p cs)) = 100.
Proof.
  intro Hne. unfold rebalance. apply fixResidual_total.
  now apply rebalance_nonempty.
Qed.

(** *** Which objects the handler can touch *)

Lemma closure_view_untouched (cs : list BudgetCategory) (l : list slot) :
  untouched cs l -> closure_view cs l = cs.
Proof.
  induction 1 as [|c s cs l Hcs _ IH]; [reflexivity|].
  simpl. rewrite IH. destruct (aliased s); [now rewrite Hcs|reflexivity].
Qed.

Lemma closure_view_copies (cs : list BudgetCategory) (l : list slot) :
  all_copies l -> closure_view cs l = cs.
Proof.
  intro H; revert cs; induction H as [|s l Hs _ IH]; intros [|c cs];
    try reflexivity.
  simpl. now rewrite Hs, IH.
Qed.

Lemma assignPercentage_untouched (p : Z)
    (cs : list BudgetCategory) :
  untouched cs (assignPercentage target p cs).
Proof.
  induction cs as [|c cs IH]; constructor; [|exact IH].
  destruct (is_edited target c); simpl; [discriminate|reflexivity].
Qed.

Lemma is_edited_with_percentage (c : BudgetCategory) (p : Z) :
  is_edited target (with_percentage c p) = is_edited target c.
Proof. reflexivity. Qed.

Lemma assignPercentage_others (p : Z)
    (cs : list BudgetCategory) :
  filter (fun c => negb (is_edited target c))
         (map cat (assignPercentage target p cs))
  = filter (fun c => negb (is_edited target c)) cs.
Proof.
  induction cs as [|c cs IH]; [reflexivity|].
  simpl. destruct (is_edited target c) eqn:E; simpl.
  - rewrite is_edited_with_percentage, E. simpl. exact IH.
  - rewrite E. simpl. now rewrite IH.
Qed.

Lemma assignPercentage_edited_copies (p : Z)
    (cs : list BudgetCategory) :
  Forall (fun s => is_edited target (cat s) = true -> aliased s = false)
         (assignPercentage target p cs).
Proof.
  induction cs as [|c cs IH]; constructor; [|exact IH].
  destruct (is_edited target c) eqn:E; simpl; [reflexivity|].
  intro H. rewrite E in H. discriminate.
Qed.

Lemma bumpFirstOther_copies (d : Z) (l l' : list slot) :
  all_copies l -> bumpFirstOther target d l = Some l' -> all_copies l'.
Proof.
  intro H; revert l'; induction H as [|s rest Hs Hrest IH]; intros l' B;
    simpl in B.
  - discriminate.
  - destruct (is_edited target (cat s)).
    + destruct (bumpFirstOther target d rest) as [r|]; simpl in B;
        [|discriminate].
      injection B as <-. constructor; [exact Hs|now apply IH].
    + injection B as <-. constructor; [exact Hs|exact Hrest].
Qed.

Lemma fixResidual_copies (l : list slot) :
  all_copies l -> all_copies (fixResidual target l).
Proof.
  intro H. unfold fixResidual.
  destruct (_ =? 100); [exact H|].
  destruct (bumpFirstOther target _ l) as [l'|] eqn:B.
  - exact (bumpFirstOther_copies _ _ _ H B).
  - destruct H as [|s rest Hs Hrest]; constructor; assumption.
Qed.

(** With positive percentages everywhere, the proportional pass either has
    nothing to do or leaves only copies in the array. *)
Lemma adjustOthers_cases (p : Z) (cs : list BudgetCategory) :
  Forall (fun c => 0 < percentage c) cs ->
  let l := assignPercentage target p cs in
  (adjustOthers target l = l /\ total_percentage (map cat l) = 100)
  \/ all_copies (adjustOthers target l).
Proof.
  intros Hpos l. unfold adjustOthers. fold l.
  destruct (total_percentage (map cat l) =? 100) eqn:E.
  - left. split; [reflexivity|now apply Z.eqb_eq].
  - right.
    assert (Hf : filter (fun c => negb (is_edited target c)) (map cat l)
                 = filter (fun c => negb (is_edited target c)) cs)
      by apply assignPercentage_others.
    rewrite !Hf. clear Hf.
    pose proof (assignPercentage_edited_copies p cs) as Hed. fold l in Hed.
    destruct (filter (fun c => negb (is_edited target c)) cs)
      as [|o others] eqn:F.
    + (* every category is the edited one *)
      assert (Hall : Forall (fun c => is_edited target c = true) cs).
      { apply filter_nil_all in F. eapply Forall_impl; [|exact F].
        simpl. intros c Hc. now destruct (is_edited target c). }
      unfold all_copies, l, assignPercentage. rewrite Forall_map.
      eapply Forall_impl; [|exact Hall]. simpl. intros c Hc. now rewrite Hc.
    + assert (HT : 0 < total_percentage (o :: others)).
      { apply total_percentage_positive; [|discriminate].
        rewrite <- F. apply Forall_forall. intros c Hc.
        apply filter_In in Hc. destruct Hc as [Hc _].
        rewrite Forall_forall in Hpos. now apply Hpos. }
      assert (HT0 : (total_percentage (o :: others) =? 0) = false)
        by (apply Z.eqb_neq; lia).
      rewrite HT0. unfold all_copies. rewrite Forall_map.
      eapply Forall_impl; [|exact Hed]. simpl. intros s Hs.
      destruct (is_edited target (cat s)); [now apply Hs|reflexivity].
Qed.

(** With positive percentages everywhere, line 147 never reaches an object of
    the render's array. *)
Lemma closure_view_positive (p : Z)
    (cs : list BudgetCategory) :
  Forall (fun c => 0 < percentage c) cs ->
  closure_view cs (rebalance target p cs) = cs.
Proof.
  intro Hpos. unfold rebalance.
  destruct (adjustOthers_cases p cs Hpos) as [[Hsame Htot]|Hcopies].
  - rewrite Hsame. unfold fixResidual. rewrite Htot. simpl.
    apply closure_view_untouched, assignPercentage_untouched.
  - apply closure_view_copies, fixResidual_copies, Hcopies.
Qed.

End OneEdit.

(** ** What an event commits *)


Lemma step_budget (st : State) (parsed : option Z) :
  step st (BudgetChange parsed)
  = {| totalBudget := or_else parsed 0; duration := duration st;
       currency := currency st;
       categories := recomputed (or_else parsed 0) (categories st) |}.
Proof. reflexivity. Qed.

Lemma step_percentage (st : State) (target : string) (p : Z) :
  step st (PercentageChange target p)
  = {| totalBudget := totalBudget st; duration := duration st;
       currency := currency st;
       categories :=
         recomputed (totalBudget st)
           (closure_view (categories st)
              (rebalance target p (categories st))) |}.
Proof. reflexivity. Qed.

Lemma step_amount (st : State) (target : string) (a : Z) :
  step st (AmountChange target a)
  = if totalBudget st <=? 0 then st
    else step st (PercentageChange target
                    (percentage_of_amount a (totalBudget st))).
Proof.
  unfold step; simpl. unfold handleAmountChange.
  destruct (totalBudget st <=? 0); [|reflexivity].
  destruct st; reflexivity.
Qed.


Lemma shares_recomputed (budget : Z) (cs : list BudgetCategory) :
  shares (recomputed budget cs) = shares cs.
Proof.
  unfold shares, recomputed. rewrite map_map. reflexivity.
Qed.

Lemma shares_percentages (cs cs' : list BudgetCategory) :
  shares cs = shares cs' -> map percentage cs = map percentage cs'.
Proof.
  intro H. apply (f_equal (map snd)) in H. unfold shares in H.
  rewrite !map_map in H. exact H.
Qed.

Lemma percentages_positive (cs : list BudgetCategory) :
  map percentage cs = map percentage seed ->
  Forall (fun c => 0 < percentage c) cs.
Proof.
  intro H. rewrite <- (Forall_map percentage (fun z => 0 < z)), H.
  simpl. repeat constructor.
Qed.

(** No event changes a share when all shares are positive. *)
Lemma step_shares (st : State) (e : event) :
  Forall (fun c => 0 < percentage c) (categories st) ->
  shares (categories (step st e)) = shares (categories st).
Proof.
  intro Hpos.
  assert (HP : forall t p,
             shares (categories (step st (PercentageChange t p)))
             = shares (categories st)).
  { intros t p. rewrite step_percentage. simpl.
    rewrite shares_recomputed, closure_view_positive; auto. }
  destruct e as [v|c|v|t p|t a].
  - rewrite step_budget. simpl. apply shares_recomputed.
  - reflexivity.
  - reflexivity.
  - apply HP.
  - rewrite step_amount. destruct (totalBudget st <=? 0); [reflexivity|apply HP].
Qed.

(** From the seeded state, every state the events can reach has the seeded
    shares. *)
Lemma run_shares (es : list event) (st : State) :
  shares (categories st) = shares seed ->
  shares (categories (run st es)) = shares seed.
Proof.
  revert st; induction es as [|e es IH]; intros st H; [exact H|].
  simpl. apply IH. rewrite step_shares; [exact H|].
  apply percentages_positive, shares_percentages, H.
Qed.

Lemma reachable_shares (es : list event) :
  shares (categories (run initial es)) = shares seed.
Proof. now apply run_shares. Qed.

Lemma reachable_percentages (es : list event) :
  percentages (run initial es) = [35; 25; 15; 15; 5; 5].
Proof.
  unfold percentages.
  rewrite (shares_percentages _ _ (reachable_shares es)). reflexivity.
Qed.

(** ** An unknown id *)

Lemma assignPercentage_unknown (target : string) (p : Z)
    (cs : list BudgetCategory) :
  Forall (fun c => is_edited target c = false) cs ->
  assignPercentage target p cs = map (mkSlot true) cs.
Proof.
  induction 1 as [|c cs Hc _ IH]; [reflexivity|].
  simpl. now rewrite Hc, IH.
Qed.

Lemma rebalance_unknown (target : string) (p : Z) (cs : list BudgetCategory) :
  Forall (fun c => is_edited target c = false) cs ->
  total_percentage cs = 100 ->
  map cat (rebalance target p cs) = cs.
Proof.
  intros Hno Htot. unfold rebalance. rewrite assignPercentage_unknown by exact Hno.
  assert (Hcat : map cat (map (mkSlot true) cs) = cs).
  { rewrite map_map. simpl. apply map_id. }
  unfold adjustOthers. rewrite Hcat, Htot. simpl.
  unfold fixResidual. rewrite Hcat, Htot. simpl. exact Hcat.
Qed.

(** ** Amounts *)

Lemma recomputed_consistent (budget : Z) (cs : list BudgetCategory) :
  Forall (fun c => amount c = amount_of (percentage c) budget)
         (recomputed budget cs).
Proof.
  unfold recomputed. rewrite Forall_map. apply Forall_forall.
  intros c _. reflexivity.
Qed.

Lemma step_consistent (st : State) (e : event) :
  consistent st -> consistent (step st e).
Proof.
  intro H.
  assert (HP : forall t p, consistent (step st (PercentageChange t p))).
  { intros t p. rewrite step_percentage. apply recomputed_consistent. }
  destruct e as [v|c|v|t p|t a].
  - rewrite step_budget. apply recomputed_consistent.
  - exact H.
  - exact H.
  - apply HP.
  - rewrite step_amount. destruct (totalBudget st <=? 0); [exact H|apply HP].
Qed.

(** A product with the budget 0 is a zero, or NaN. *)
Lemma amount_of_zero (p : Z) : amount_of p 0 = 0.
Proof.
  unfold amount_of.
  now destruct (Double.div (Double.of_Z p) (Double.of_Z 100)) as [[]|[]| |[]].
Qed.

(** ** Enumeration of the percentages from 0 to 100 *)

Lemma hundred_complete (p : Z) : 0 <= p <= 100 -> In p hundred.
Proof.
  intro H. unfold hundred. apply in_map_iff.
  exists (Z.to_nat p). split; [lia|]. apply in_seq. lia.
Qed.

Lemma check_hundred (f : Z -> bool) (p : Z) :
  forallb f hundred = true -> 0 <= p <= 100 -> f p = true.
Proof.
  intros Hall Hp. rewrite forallb_forall in Hall.
  apply Hall, hundred_complete, Hp.
Qed.

Lemma nonnegative_Forall (l : list BudgetCategory) :
  nonnegative l = true -> Forall (fun c => 0 <= percentage c) l.
Proof.
  unfold nonnegative. rewrite forallb_forall, Forall_forall.
  intros H c Hc. apply Z.leb_le, H, Hc.
Qed.

(** ** The rebalanced array in the reachable states *)


Ltac check_all_percentages p Hp :=
  match goal with
  | |- nonnegative (map cat (rebalance ?t p ?cs)) = true =>
      apply (check_hundred
               (fun q => nonnegative (map cat (rebalance t q cs))) p);
      [vm_compute; reflexivity | exact Hp]
  end.

Lemma seeded_rebalance_nonnegative (cs : list BudgetCategory)
    (target : string) (p : Z) :
  shares cs = shares seed -> 0 <= p <= 100 ->
  nonnegative (map cat (rebalance target p cs)) = true.
Proof.
  intros H Hp.
  destruct cs as [|[i1 n1 a1 p1] [|[i2 n2 a2 p2] [|[i3 n3 a3 p3]
    [|[i4 n4 a4 p4] [|[i5 n5 a5 p5] [|[i6 n6 a6 p6] [|c7 cs]]]]]]];
    try discriminate H.
  injection H as -> -> -> -> -> -> -> -> -> -> -> -> -> -> -> -> -> ->.
  destruct (String.eqb_spec "1" target) as [<-|N1]; [check_all_percentages p Hp|].
  destruct (String.eqb_spec "2" target) as [<-|N2]; [check_all_percentages p Hp|].
  destruct (String.eqb_spec "3" target) as [<-|N3]; [check_all_percentages p Hp|].
  destruct (String.eqb_spec "4" target) as [<-|N4]; [check_all_percentages p Hp|].
  destruct (String.eqb_spec "5" target) as [<-|N5]; [check_all_percentages p Hp|].
  destruct (String.eqb_spec "6" target) as [<-|N6]; [check_all_percentages p Hp|].
  assert (Hno : Forall (fun c => is_edited target c = false)
                  [mkCategory "1" "Accommodation" a1 35;
                   mkCategory "2" "Food & Drinks" a2 25;
                   mkCategory "3" "Transportation" a3 15;
                   mkCategory "4" "Activities" a4 15;
                   mkCategory "5" "Shopping" a5 5;
                   mkCategory "6" "Miscellaneous" a6 5]).
  { repeat (constructor;
            [unfold is_edited; cbn [id]; apply String.eqb_neq; assumption|]).
    constructor. }
  rewrite (rebalance_unknown target p _ Hno eq_refl). reflexivity.
Qed.

(** ** When line 147 does reach the render's array *)

(** If all the other categories are at 0 the proportional pass is skipped, the
    first of them is still the render's own object, and the residual lands in
    it: the array that [updateCategoryAmounts] maps has changed under it. *)
Remark residual_through_alias :
  let cs := [ mkCategory "1" "Accommodation" 0 100;
              mkCategory "2" "Food & Drinks" 0 0;
              mkCategory "3" "Transportation" 0 0 ] in
  map aliased (rebalance "1" 60 cs) = [false; true; true]
  /\ map percentage (closure_view cs (rebalance "1" 60 cs)) = [100; 40; 0]
  /\ percentages (step (mkState 0 7 USD cs) (PercentageChange "1" 60))
     = [100; 40; 0].
Proof. repeat split. Qed.

(** The array of line 151 taken as the categories of a next call: after 0 for
    Accommodation, 65 for Food & Drinks makes the other four round up to 36
    where 35 are left, and the residual of -1 lands in Accommodation. *)
Remark rebalanced_array_fed_back :
  map (fun s => percentage (cat s)) (rebalance "1" 0 seed)
  = [0; 38; 23; 23; 8; 8]
  /\ map (fun s => percentage (cat s))
         (rebalance "2" 65 (map cat (rebalance "1" 0 seed)))
     = [-1; 65; 13; 13; 5; 5].
Proof. split; reflexivity. Qed.

(** * The claims *)

(** C1 (sum to 100).  After every sequence of events from the seeded state
    (edits of a percentage or of an amount, with changes of budget, duration
    and currency in between, all with arbitrary integer arguments) the
    percentages of the stored categories sum to exactly 100; and in every such
    state, for every id and every requested percentage of at most 2^52 in
    magnitude (up to there the sums of lines 110-147, which the source makes
    in doubles, are exact), the array that the residual correction leaves and
    line 151 hands to [setCategories] sums to exactly 100 as well. *)
Theorem sum_to_100 (es : list event) :
  total_percentage (categories (run initial es)) = 100
  /\ forall (target : string) (p : Z),
       Z.abs p <= 2 ^ 52 ->
       total_percentage
         (map cat (rebalance target p (categories (run initial es)))) = 100.
Proof.
  pose proof (reachable_percentages es) as H. unfold percentages in H.
  split.
  - rewrite total_percentage_map, H. reflexivity.
  - intros target p _. apply rebalance_total.
    intro E. rewrite E in H. discriminate H.
Qed.

Lemma sum_to_100_witness :
  Z.abs 50 <= 2 ^ 52
  /\ total_percentage
       (map cat
          (rebalance "1" 50
             (categories (run initial [BudgetChange (Some 1000)])))) = 100.
Proof.
  assert (B : Z.abs 50 <= 2 ^ 52) by (vm_compute; discriminate).
  split; [exact B|].
  exact (proj2 (sum_to_100 [BudgetChange (Some 1000)]) "1"%string 50 B).
Defined.

(** C2, as the code has it.  After every sequence of events from the seeded
    state no stored category has a negative percentage, whatever the
    arguments; and in every such state, for every id and every requested
    percentage from 0 to 100, the residual correction leaves no negative
    percentage in the array of line 151 either. *)
Theorem percentages_never_negative (es : list event) :
  Forall (fun c => 0 <= percentage c) (categories (run initial es))
  /\ forall (target : string) (p : Z),
       0 <= p <= 100 ->
       Forall (fun c => 0 <= percentage c)
              (map cat (rebalance target p (categories (run initial es)))).
Proof.
  split.
  - pose proof (reachable_percentages es) as H. unfold percentages in H.
    rewrite <- (Forall_map percentage (fun z => 0 <= z)), H.
    repeat constructor; lia.
  - intros target p Hp. apply nonnegative_Forall.
    apply seeded_rebalance_nonnegative; [apply reachable_shares|exact Hp].
Qed.

Lemma percentages_never_negative_witness :
  0 <= 60 <= 100
  /\ Forall (fun c => 0 <= percentage c)
            (map cat
               (rebalance "2" 60
                  (categories (run initial [BudgetChange (Some 1000)])))).
Proof.
  split; [lia|].
  apply (proj2 (percentages_never_negative [BudgetChange (Some 1000)])). lia.
Defined.

(** C2, as stated, fails for a request above 100, which the handler does not
    clamp and the amount field can make: with a budget of 1000 an amount of
    1500 for Accommodation is a request of 150, the proportional pass leaves
    the others at 0, and the residual correction of line 147 takes Food &
    Drinks to -50 in the array of line 151. *)
Lemma residual_below_zero :
  let st := run initial [BudgetChange (Some 1000)] in
  handleAmountChange st "1" 1500 = handlePercentageChange st "1" 150
  /\ map (fun s => percentage (cat s))
         (adjustOthers "1" (assignPercentage "1" 150 (categories st)))
     = [150; 0; 0; 0; 0; 0]
  /\ map (fun s => percentage (cat s)) (rebalance "1" 150 (categories st))
     = [150; -50; 0; 0; 0; 0]
  /\ ~ Forall (fun c => 0 <= percentage c)
              (map cat (rebalance "1" 150 (categories st))).
Proof.
  vm_compute. repeat split.
  intro H. inversion H as [|c l _ Hl]. inversion Hl as [|c' l' Hc' _].
  apply Hc'. reflexivity.
Qed.

(** C3 (derived amounts).  After every sequence of events from the seeded
    state, each stored category's amount is
    [Math.round((percentage / 100) * totalBudget)] for its stored percentage
    and the stored total budget, the quotient and the product being those of
    doubles as in line 72; a budget change and a percentage change establish
    this from any state whose percentages are at most 100 in magnitude (the
    product of line 72 is then finite).  At a budget of 90 the amounts are
    31, 23, 14, 14, 5, 5: the double of 35 per cent of 90 lies just under
    31.5. *)
Theorem amount_consistent (es : list event) :
  Forall (fun c =>
            amount c
            = Double.Math_round
                (Double.mul
                   (Double.div (Double.of_Z (percentage c)) (Double.of_Z 100))
                   (Double.of_Z (totalBudget (run initial es)))))
         (categories (run initial es))
  /\ (forall st parsed,
        Forall (fun c => Z.abs (percentage c) <= 100) (categories st) ->
        consistent (step st (BudgetChange parsed)))
  /\ (forall st target p,
        Forall (fun c => Z.abs (percentage c) <= 100) (categories st) ->
        consistent (step st (PercentageChange target p)))
  /\ map amount (categories (run initial [BudgetChange (Some 90)]))
     = [31; 23; 14; 14; 5; 5].
Proof.
  split; [|split; [|split]].
  - change (consistent (run initial es)).
    assert (G : forall st, consistent st -> consistent (run st es)).
    { induction es as [|e es IH]; intros st H; [exact H|].
      simpl. apply IH, step_consistent, H. }
    apply G. unfold consistent. apply Forall_forall.
    intros c Hc. simpl in Hc.
    repeat (destruct Hc as [<-|Hc]; [vm_compute; reflexivity|]).
    contradiction.
  - intros st parsed _. rewrite step_budget. apply recomputed_consistent.
  - intros st target p _. rewrite step_percentage. apply recomputed_consistent.
  - vm_compute. reflexivity.
Qed.

Lemma amount_consistent_witness :
  Forall (fun c => Z.abs (percentage c) <= 100) (categories initial)
  /\ consistent (step initial (BudgetChange (Some 90)))
  /\ consistent (step initial (PercentageChange "1" 50)).
Proof.
  assert (B : Forall (fun c => Z.abs (percentage c) <= 100)
                     (categories initial)).
  { repeat (apply Forall_cons; [simpl; lia|]). apply Forall_nil. }
  split; [exact B|]. split.
  - exact (proj1 (proj2 (amount_consistent [])) initial (Some 90) B).
  - exact (proj1 (proj2 (proj2 (amount_consistent [])))
             initial "1"%string 50 B).
Defined.

(** C4, as the code has it.  Step 1 gives the edited category the requested
    percentage as it is, whatever its value, and leaves the others alone: the
    handler has no clamp.  What its callers pass: the [-] button at least 5
    and the [+] button at most 60 for any category, and both a value from 5
    to 60 for every category of a state reachable from the seeded one. *)
Theorem step1_assigns_unclamped (target : string) (p : Z)
    (cs : list BudgetCategory) :
  map (fun s => percentage (cat s)) (assignPercentage target p cs)
  = map (fun c => if is_edited target c then p else percentage c) cs
  /\ (forall c, exists q,
        minusButton c = PercentageChange (id c) q /\ 5 <= q)
  /\ (forall c, exists q,
        plusButton c = PercentageChange (id c) q /\ q <= 60)
  /\ (forall es c,
        In c (categories (run initial es)) ->
        exists q1 q2,
          minusButton c = PercentageChange (id c) q1 /\ 5 <= q1 <= 60
          /\ plusButton c = PercentageChange (id c) q2 /\ 5 <= q2 <= 60).
Proof.
  split; [|split; [|split]].
  - unfold assignPercentage. rewrite map_map. apply map_ext.
    intro c. now destruct (is_edited target c).
  - intro c. eexists. split; [reflexivity|]. lia.
  - intro c. eexists. split; [reflexivity|]. lia.
  - intros es c Hc.
    assert (R : 5 <= percentage c <= 35).
    { apply (in_map percentage) in Hc.
      pose proof (reachable_percentages es) as H. unfold percentages in H.
      rewrite H in Hc. simpl in Hc.
      repeat (destruct Hc as [<-|Hc]; [lia|]). contradiction. }
    do 2 eexists. split; [reflexivity|]. split; [lia|].
    split; [reflexivity|]. lia.
Qed.

Lemma step1_assigns_unclamped_witness :
  In (mkCategory "5" "Shopping" 0 5) (categories (run initial []))
  /\ exists q1 q2,
       minusButton (mkCategory "5" "Shopping" 0 5)
       = PercentageChange "5" q1 /\ 5 <= q1 <= 60
       /\ plusButton (mkCategory "5" "Shopping" 0 5)
          = PercentageChange "5" q2 /\ 5 <= q2 <= 60.
Proof.
  assert (B : In (mkCategory "5" "Shopping" 0 5) (categories (run initial [])))
    by (simpl; auto 10).
  split; [exact B|].
  exact (proj2 (proj2 (proj2 (step1_assigns_unclamped "5" 5 seed)))
           [] (mkCategory "5" "Shopping" 0 5) B).
Defined.

(** C4, as stated, fails: requesting 150 (or -20) for Accommodation leaves
    150 (or -20) in the edited category after step 1, and in the array of
    line 151. *)
Lemma step1_not_clamped :
  map (fun s => percentage (cat s)) (assignPercentage "1" 150 seed)
  = [150; 25; 15; 15; 5; 5]
  /\ map (fun s => percentage (cat s)) (assignPercentage "1" (-20) seed)
     = [-20; 25; 15; 15; 5; 5]
  /\ map (fun s => percentage (cat s)) (rebalance "1" 150 seed)
     = [150; -50; 0; 0; 0; 0]
  /\ ~ (forall (target : string) (p : Z) (cs : list BudgetCategory) (s : slot),
          In s (assignPercentage target p cs) ->
          is_edited target (cat s) = true ->
          0 <= percentage (cat s) <= 100).
Proof.
  repeat split; try reflexivity.
  intro H.
  specialize (H "1"%string 150 seed
                (mkSlot false (mkCategory "1" "Accommodation" 0 150))).
  simpl in H. assert (0 <= 150 <= 100) by (apply H; auto). lia.
Qed.

(** C5 at its input.  In the state with the seeded shares and a total budget
    of 1000, the handler called for Accommodation with 50 computes the
    proportional values 19, 12, 12, 4, 4 for the other five, gives the
    residual of -1 to Food & Drinks, and passes 50, 18, 12, 12, 4, 4 (sum 100)
    to [setCategories] at line 151; [updateCategoryAmounts] then maps the
    render's array and passes that to [setCategories] at line 78, so what the
    event stores is 35, 25, 15, 15, 5, 5 with the amounts for 1000. *)
Theorem scenario_A_stored_and_computed :
  let st := step initial (BudgetChange (Some 1000)) in
  totalBudget st = 1000
  /\ percentages st = [35; 25; 15; 15; 5; 5]
  /\ map (fun c => proportional (percentage c) (100 - 115) 65)
         (filter (fun c => negb (is_edited "1" c)) (categories st))
     = [19; 12; 12; 4; 4]
  /\ map (fun s => percentage (cat s)) (rebalance "1" 50 (categories st))
     = [50; 18; 12; 12; 4; 4]
  /\ handlePercentageChange st "1" 50
     = [ SetCategories (map cat (rebalance "1" 50 (categories st)));
         SetCategories (recomputed 1000 (categories st)) ]
  /\ percentages (step st (PercentageChange "1" 50)) = [35; 25; 15; 15; 5; 5]
  /\ map amount (categories (step st (PercentageChange "1" 50)))
     = [350; 250; 150; 150; 50; 50].
Proof. vm_compute. repeat split; reflexivity. Qed.

(** C6, as the code has it.  A budget change stores the parsed value (0 when
    the text does not parse or parses to 0), recomputes every amount as
    [Math.round((percentage / 100) * value)], quotient and product in doubles
    as in line 72, and changes no id, name or percentage; a budget of zero
    gives every category the amount zero.  Negative values are stored and
    used like any other.  This holds from every state whose percentages are
    at most 100 in magnitude, where the product of line 72 is finite. *)
Theorem setTotalBudget_effect (st : State) (parsed : option Z) :
  Forall (fun c => Z.abs (percentage c) <= 100) (categories st) ->
  let value := or_else parsed 0 in
  totalBudget (step st (BudgetChange parsed)) = value
  /\ map amount (categories (step st (BudgetChange parsed)))
     = map (fun c =>
              Double.Math_round
                (Double.mul
                   (Double.div (Double.of_Z (percentage c)) (Double.of_Z 100))
                   (Double.of_Z value)))
           (categories st)
  /\ shares (categories (step st (BudgetChange parsed))) = shares (categories st)
  /\ percentages (step st (BudgetChange parsed)) = percentages st
  /\ Forall (fun c => amount c = 0) (categories (step st (BudgetChange (Some 0))))
  /\ Forall (fun c => amount c = 0) (categories (step st (BudgetChange None))).
Proof.
  assert (Z0 : forall cs, Forall (fun c => amount c = 0) (recomputed 0 cs)).
  { intro cs. unfold recomputed. rewrite Forall_map. apply Forall_forall.
    intros c _. apply amount_of_zero. }
  intros _. rewrite !step_budget. cbn [totalBudget categories or_else].
  repeat split.
  - unfold recomputed. rewrite map_map. reflexivity.
  - apply shares_recomputed.
  - unfold percentages. simpl. apply shares_percentages, shares_recomputed.
  - apply Z0.
  - apply Z0.
Qed.

Lemma setTotalBudget_effect_witness :
  Forall (fun c => Z.abs (percentage c) <= 100) (categories initial)
  /\ totalBudget (step initial (BudgetChange (Some 90))) = 90
  /\ map amount (categories (step initial (BudgetChange (Some 90))))
     = [31; 23; 14; 14; 5; 5].
Proof.
  assert (B : Forall (fun c => Z.abs (percentage c) <= 100)
                     (categories initial)).
  { repeat (apply Forall_cons; [simpl; lia|]). apply Forall_nil. }
  split; [exact B|].
  pose proof (setTotalBudget_effect initial (Some 90) B) as H.
  split; [exact (proj1 H)|].
  etransitivity; [exact (proj1 (proj2 H))|]. vm_compute. reflexivity.
Defined.

(** C6, as stated, fails for a negative budget: from the seeded state a
    budget of -100 is stored as -100 and gives the amounts -35, -25, -15,
    -15, -5, -5, not zero. *)
Lemma negative_budget_amounts :
  totalBudget (step initial (BudgetChange (Some (-100)))) = -100
  /\ map amount (categories (step initial (BudgetChange (Some (-100)))))
     = [-35; -25; -15; -15; -5; -5]
  /\ ~ Forall (fun c => amount c = 0)
              (categories (step initial (BudgetChange (Some (-100))))).
Proof.
  repeat split. intro H. inversion H as [|c l Hc Hl]. discriminate Hc.
Qed.

(** C7.  An amount change does nothing when the total budget is zero or
    negative (no setter is called, the state stays as it is); otherwise it is
    the percentage change with
    [Math.round((newAmount / totalBudget) * 100)], quotient and product in
    doubles as in line 162, setter call for setter call, for every amount of
    at most 2^1000 in magnitude (the product of line 162 is then finite).  In
    particular with the initial total budget of 0 an amount of 500 changes
    nothing; and an amount of 23 out of 40 requests 57, the double of 57.5
    per cent lying just under it. *)
Theorem setCategoryAmount_delegates (st : State) (target : string) (a : Z) :
  Z.abs a <= 2 ^ 1000 ->
  handleAmountChange st target a
  = (if totalBudget st <=? 0 then []
     else handlePercentageChange st target
            (Double.Math_round
               (Double.mul
                  (Double.div (Double.of_Z a) (Double.of_Z (totalBudget st)))
                  (Double.of_Z 100))))
  /\ step st (AmountChange target a)
     = (if totalBudget st <=? 0 then st
        else step st (PercentageChange target
                        (Double.Math_round
                           (Double.mul
                              (Double.div (Double.of_Z a)
                                 (Double.of_Z (totalBudget st)))
                              (Double.of_Z 100)))))
  /\ step initial (AmountChange target 500) = initial
  /\ handleAmountChange (run initial [BudgetChange (Some 40)]) target 23
     = handlePercentageChange (run initial [BudgetChange (Some 40)]) target 57.
Proof.
  intros _.
  split; [reflexivity|]. split; [apply step_amount|]. split; reflexivity.
Qed.

Lemma setCategoryAmount_delegates_witness :
  Z.abs 23 <= 2 ^ 1000
  /\ handleAmountChange (run initial [BudgetChange (Some 40)]) "2" 23
     = handlePercentageChange (run initial [BudgetChange (Some 40)]) "2" 57.
Proof.
  assert (B : Z.abs 23 <= 2 ^ 1000) by (vm_compute; discriminate).
  split; [exact B|].
  etransitivity;
    [exact (proj1 (setCategoryAmount_delegates
                     (run initial [BudgetChange (Some 40)]) "2" 23 B))|].
  vm_compute. reflexivity.
Defined.




(** ** Budget levels *)

Lemma Qltb_lt (x y : Q) : Qltb x y = true <-> (x < y)%Q.
Proof.
  unfold Qltb. rewrite negb_true_iff, <- not_true_iff_false, Qle_bool_iff.
  split; [apply Qnot_le_lt|apply Qlt_not_le].
Qed.

Lemma thresholds_ordered (category : string) :
  low (thresholdsFor category) <= high (thresholdsFor category).
Proof.
  unfold thresholdsFor.
  repeat match goal with
         | |- context [String.eqb ?a ?b] => destruct (String.eqb a b)
         end; simpl; lia.
Qed.

Lemma below_not_above (d : num) (lo hi : Z) :
  lo <= hi -> ltb d lo = true -> gtb d hi = false.
Proof.
  intros Hle Hlt. destruct d as [q| | |]; simpl in *; try reflexivity;
    try discriminate.
  apply not_true_iff_false. intro Hgt.
  apply Qltb_lt in Hlt, Hgt.
  assert (H : (inject_Z hi < inject_Z lo)%Q) by (eapply Qlt_trans; eassumption).
  rewrite <- Zlt_Qlt in H. lia.
Qed.



(** ** Affordable places *)

(** C10.  Whatever the categories, the duration and the currency, the
    affordable price level is 1, 2 or 3 and never 0; so in the filter of
    [fetchSuggestedPlaces] every place whose price level is missing (read
    as 0), 0 or 1 passes and is kept in the stored list, and in the filter
    of [generateFallbackPlaces] every sample with price level 0 or 1
    passes. *)
Theorem affordable_level_at_least_one (st : State) :
  (affordablePriceLevel st = 1 \/ affordablePriceLevel st = 2
   \/ affordablePriceLevel st = 3)
  /\ affordablePriceLevel st <> 0
  /\ (forall place,
        price_level place = None \/ price_level place = Some 0
        \/ price_level place = Some 1 ->
        isAffordable st place = true)
  /\ (forall attractions place,
        In place attractions ->
        price_level place = None \/ price_level place = Some 0
        \/ price_level place = Some 1 ->
        In place (filteredPlaces st attractions))
  /\ (forall place,
        price_level place = Some 0 \/ price_level place = Some 1 ->
        isAffordableSample st place = true).
Proof.
  assert (L : affordablePriceLevel st = 1 \/ affordablePriceLevel st = 2
              \/ affordablePriceLevel st = 3).
  { unfold affordablePriceLevel.
    repeat match goal with
           | |- context [if ?b then _ else _] => destruct b
           end; auto. }
  assert (A : forall place,
             price_level place = None \/ price_level place = Some 0
             \/ price_level place = Some 1 ->
             isAffordable st place = true).
  { intros place H. unfold isAffordable. apply Z.leb_le.
    destruct H as [-> | [-> | ->]]; lia. }
  split; [exact L|]. split; [lia|]. split; [exact A|]. split.
  - intros attractions place Hin H. unfold filteredPlaces.
    apply filter_In. split; [exact Hin|now apply A].
  - intros place H. unfold isAffordableSample.
    destruct H as [-> | ->]; apply Z.leb_le; lia.
Qed.

Lemma affordable_level_at_least_one_witness :
  price_level (mkPlace "p1" "Old Town" "Landmark" (9 # 2) "Walking tour" "about:blank" None None) = None
  /\ isAffordable initial
       (mkPlace "p1" "Old Town" "Landmark" (9 # 2) "Walking tour" "about:blank" None None) = true.
Proof.
  split; [reflexivity|].
  apply (proj1 (proj2 (proj2 (affordable_level_at_least_one initial)))).
  left. reflexivity.
Defined.

(** * Further properties of the planner *)

(** ** The reachable states *)

Lemma with_amount_same (c : BudgetCategory) : with_amount c (amount c) = c.
Proof. now destruct c. Qed.

Lemma recomputed_twice (b1 b2 : Z) (cs : list BudgetCategory) :
  recomputed b2 (recomputed b1 cs) = recomputed b2 cs.
Proof.
  unfold recomputed. rewrite map_map. apply map_ext. intro c. reflexivity.
Qed.

Lemma recomputed_seed_positive (b : Z) :
  Forall (fun c => 0 < percentage c) (recomputed b seed).
Proof. repeat constructor. Qed.

(** The categories of a reachable state are the seeded ones with the amounts
    of the stored budget. *)
Lemma run_categories (es : list event) (st : State) :
  categories st = recomputed (totalBudget st) seed ->
  categories (run st es) = recomputed (totalBudget (run st es)) seed.
Proof.
  revert st; induction es as [|e es IH]; intros st H; [exact H|].
  simpl. apply IH.
  assert (HP : forall t p,
             categories (step st (PercentageChange t p))
             = recomputed (totalBudget (step st (PercentageChange t p))) seed).
  { intros t p. rewrite step_percentage. simpl.
    rewrite closure_view_positive.
    - rewrite H. apply recomputed_twice.
    - rewrite H. apply recomputed_seed_positive. }
  destruct e as [v|c|v|t p|t a].
  - rewrite step_budget. simpl. rewrite H. apply recomputed_twice.
  - exact H.
  - exact H.
  - apply HP.
  - rewrite step_amount. destruct (totalBudget st <=? 0); [exact H|apply HP].
Qed.

Lemma reachable_categories (es : list event) :
  categories (run initial es)
  = recomputed (totalBudget (run initial es)) seed.
Proof. now apply run_categories. Qed.

Lemma state_eta (st : State) :
  {| totalBudget := totalBudget st; duration := duration st;
     currency := currency st; categories := categories st |} = st.
Proof. now destruct st. Qed.

Lemma or_else_nonzero (v : option Z) (d : Z) : d <> 0 -> or_else v d <> 0.
Proof.
  intro Hd. destruct v as [[|z|z]|]; simpl; try exact Hd; discriminate.
Qed.

Lemma step_duration (st : State) (e : event) :
  duration st <> 0 -> duration (step st e) <> 0.
Proof.
  intro H. destruct e as [v|c|v|t p|t a]; try exact H.
  - unfold step; simpl. apply or_else_nonzero. discriminate.
  - rewrite step_amount. destruct (totalBudget st <=? 0); exact H.
Qed.

(** X1.  From the seeded state an edit of a percentage or of an amount,
    whatever category and value it names, leaves the whole state as it was:
    budget, duration, currency and every field of every category. *)
Theorem edits_change_nothing (es : list event) (target : string) (v : Z) :
  step (run initial es) (PercentageChange target v) = run initial es
  /\ step (run initial es) (AmountChange target v) = run initial es.
Proof.
  assert (P : forall t p,
             step (run initial es) (PercentageChange t p) = run initial es).
  { intros t p. rewrite step_percentage.
    pose proof (reachable_categories es) as H.
    rewrite closure_view_positive.
    - rewrite H at 1. rewrite recomputed_twice, <- H. apply state_eta.
    - rewrite H. apply recomputed_seed_positive. }
  split; [apply P|].
  rewrite step_amount. destruct (totalBudget (run initial es) <=? 0);
    [reflexivity|apply P].
Qed.

(** X2.  The categories of every state reachable from the seeded one are the
    six seeded categories, in order, each with the amount
    [Math.round((percentage / 100) * totalBudget)] of the stored budget,
    quotient and product in doubles as in line 72: the state is determined
    by the stored budget, duration and currency. *)
Theorem reachable_state_shape (es : list event) :
  categories (run initial es)
  = map (fun c =>
           mkCategory (id c) (name c)
             (Double.Math_round
                (Double.mul
                   (Double.div (Double.of_Z (percentage c)) (Double.of_Z 100))
                   (Double.of_Z (totalBudget (run initial es)))))
             (percentage c))
        seed.
Proof. apply reachable_categories. Qed.

(** X3.  The stored duration is never 0 after any sequence of events (it can
    be negative), so a division by the duration in [generatePlan],
    [fetchSuggestedPlaces] or [getBudgetLevelIndicator] never yields Infinity
    or NaN. *)
Theorem duration_never_zero (es : list event) :
  duration (run initial es) <> 0
  /\ forall x : Q,
       div x (duration (run initial es))
       = Fin (x / inject_Z (duration (run initial es))).
Proof.
  assert (H : duration (run initial es) <> 0).
  { assert (G : forall st, duration st <> 0 -> duration (run st es) <> 0).
    { induction es as [|e es IH]; intros st Hst; [exact Hst|].
      simpl. apply IH, step_duration, Hst. }
    apply G. discriminate. }
  split; [exact H|]. intro x. unfold div.
  apply Z.eqb_neq in H. now rewrite H.
Qed.

(** X4.  Budget changes do not accumulate: after two of them in a row the
    state is the one the second alone gives, from any state, so repeated
    rounding never drifts the amounts. *)
Theorem budget_changes_compose (st : State) (v1 v2 : option Z) :
  step (step st (BudgetChange v1)) (BudgetChange v2)
  = step st (BudgetChange v2).
Proof.
  rewrite !step_budget. simpl. now rewrite recomputed_twice.
Qed.

(** X6.  In every reachable state the activities budget that decides the
    affordable price level is [Math.round((15 / 100) * totalBudget)],
    quotient and product in doubles as in line 72: the level depends on the
    stored budget, duration and currency only. *)
Theorem activities_budget_reachable (es : list event) :
  activitiesBudget (run initial es)
  = Double.Math_round
      (Double.mul (Double.div (Double.of_Z 15) (Double.of_Z 100))
         (Double.of_Z (totalBudget (run initial es)))).
Proof.
  unfold activitiesBudget. rewrite reachable_categories.
  generalize (totalBudget (run initial es)). intro b.
  change (Double.Math_round
            (Double.mul (Double.div (Double.of_Z 15) (Double.of_Z 100))
               (Double.of_Z b)))
    with (amount_of 15 b).
  cbn -[amount_of or_else].
  now destruct (amount_of 15 b).
Qed.

(** ** The array of line 151, for any categories *)

Section Rebalanced.

Variable target : string.

Lemma bumpFirstOther_fields (d : Z) (l l' : list slot) :
  bumpFirstOther target d l = Some l' ->
  map (fun s => (id (cat s), name (cat s), amount (cat s))) l'
  = map (fun s => (id (cat s), name (cat s), amount (cat s))) l.
Proof.
  revert l'; induction l as [|s rest IH]; intros l' H; simpl in H.
  - discriminate.
  - destruct (is_edited target (cat s)).
    + destruct (bumpFirstOther target d rest) as [r|]; simpl in H;
        [|discriminate].
      injection H as <-. simpl. now rewrite (IH r eq_refl).
    + injection H as <-. reflexivity.
Qed.

Lemma fixResidual_fields (l : list slot) :
  map (fun s => (id (cat s), name (cat s), amount (cat s)))
      (fixResidual target l)
  = map (fun s => (id (cat s), name (cat s), amount (cat s))) l.
Proof.
  unfold fixResidual. destruct (_ =? 100); [reflexivity|].
  destruct (bumpFirstOther target _ l) as [l'|] eqn:B.
  - exact (bumpFirstOther_fields _ _ _ B).
  - now destruct l.
Qed.

Lemma adjustOthers_fields (l : list slot) :
  map (fun s => (id (cat s), name (cat s), amount (cat s)))
      (adjustOthers target l)
  = map (fun s => (id (cat s), name (cat s), amount (cat s))) l.
Proof.
  unfold adjustOthers. destruct (_ =? 100); [reflexivity|].
  destruct (filter _ _); [reflexivity|].
  rewrite map_map. apply map_ext. intro s.
  destruct (is_edited target (cat s)); [reflexivity|].
  now destruct (_ =? 0).
Qed.

Lemma assignPercentage_fields (p : Z) (cs : list BudgetCategory) :
  map (fun s => (id (cat s), name (cat s), amount (cat s)))
      (assignPercentage target p cs)
  = map (fun c => (id c, name c, amount c)) cs.
Proof.
  unfold assignPercentage. rewrite map_map. apply map_ext. intro c.
  now destruct (is_edited target c).
Qed.

Lemma assignPercentage_request (p : Z) (cs : list BudgetCategory) :
  request_kept target p (assignPercentage target p cs).
Proof.
  unfold request_kept, assignPercentage. rewrite Forall_map.
  apply Forall_forall. intros c _.
  destruct (is_edited target c) eqn:E; simpl; [reflexivity|].
  intro H. rewrite E in H. discriminate.
Qed.

Lemma adjustOthers_request (p : Z) (l : list slot) :
  request_kept target p l -> request_kept target p (adjustOthers target l).
Proof.
  intro H. unfold adjustOthers. destruct (_ =? 100); [exact H|].
  destruct (filter _ _); [exact H|].
  unfold request_kept. rewrite Forall_map.
  eapply Forall_impl; [|exact H]. simpl. intros s Hs.
  destruct (is_edited target (cat s)) eqn:E; simpl.
  - rewrite E. exact Hs.
  - destruct (_ =? 0); intro H'; unfold is_edited in *; simpl in *;
      congruence.
Qed.

Lemma bumpFirstOther_request (p d : Z) (l l' : list slot) :
  request_kept target p l -> bumpFirstOther target d l = Some l' -> request_kept target p l'.
Proof.
  intro H; revert l'; induction H as [|s rest Hs Hrest IH]; intros l' B;
    simpl in B.
  - discriminate.
  - destruct (is_edited target (cat s)) eqn:E.
    + destruct (bumpFirstOther target d rest) as [r|]; simpl in B;
        [|discriminate].
      injection B as <-.
      constructor; [intros _; now apply Hs|now apply IH].
    + injection B as <-. constructor; [|exact Hrest].
      intro H'. unfold is_edited in *; simpl in *. congruence.
Qed.

Lemma bumpFirstOther_finds (d : Z) (l : list slot) :
  Exists (fun s => is_edited target (cat s) = false) l ->
  bumpFirstOther target d l <> None.
Proof.
  induction 1 as [s rest Hs|s rest _ IH]; simpl.
  - rewrite Hs. discriminate.
  - destruct (is_edited target (cat s)); [|discriminate].
    destruct (bumpFirstOther target d rest); [discriminate|contradiction].
Qed.

Lemma adjustOthers_other (p : Z) (cs : list BudgetCategory) :
  Exists (fun c => is_edited target c = false) cs ->
  Exists (fun s => is_edited target (cat s) = false)
         (adjustOthers target (assignPercentage target p cs)).
Proof.
  intro H.
  assert (A : Exists (fun s => is_edited target (cat s) = false)
                     (assignPercentage target p cs)).
  { unfold assignPercentage. apply Exists_map.
    eapply Exists_impl; [|exact H]. simpl. intros c Hc. now rewrite Hc. }
  unfold adjustOthers. destruct (_ =? 100); [exact A|].
  destruct (filter _ _); [exact A|].
  apply Exists_map. eapply Exists_impl; [|exact A]. simpl. intros s Hs.
  rewrite Hs. now destruct (_ =? 0).
Qed.

Lemma negatives_none (l : list slot) :
  Forall (fun s => 0 <= percentage (cat s)) l -> negatives l = [].
Proof.
  unfold negatives. induction 1 as [|s rest Hs _ IH]; [reflexivity|].
  simpl. rewrite IH. apply Z.ltb_ge in Hs. now rewrite Hs.
Qed.

Lemma bumpFirstOther_negatives (d : Z) (l l' : list slot) :
  Forall (fun s => 0 <= percentage (cat s)) l ->
  bumpFirstOther target d l = Some l' ->
  (List.length (negatives l') <= 1)%nat.
Proof.
  intro H; revert l'; induction H as [|s rest Hs Hrest IH]; intros l' B;
    simpl in B.
  - discriminate.
  - destruct (is_edited target (cat s)).
    + destruct (bumpFirstOther target d rest) as [r|]; simpl in B;
        [|discriminate].
      injection B as <-. unfold negatives. simpl.
      apply Z.ltb_ge in Hs. rewrite Hs. now apply IH.
    + injection B as <-. unfold negatives. simpl.
      fold (negatives rest). rewrite (negatives_none rest Hrest).
      destruct (_ <? 0); simpl; lia.
Qed.

Lemma adjustOthers_nonnegative (p : Z) (cs : list BudgetCategory) :
  Forall (fun c => 0 <= percentage c) cs -> 0 <= p ->
  Forall (fun s => 0 <= percentage (cat s))
         (adjustOthers target (assignPercentage target p cs)).
Proof.
  intros H Hp.
  assert (A : Forall (fun s => 0 <= percentage (cat s))
                     (assignPercentage target p cs)).
  { unfold assignPercentage. rewrite Forall_map.
    eapply Forall_impl; [|exact H]. simpl. intros c Hc.
    now destruct (is_edited target c). }
  unfold adjustOthers. destruct (_ =? 100); [exact A|].
  destruct (filter _ _); [exact A|].
  rewrite Forall_map. eapply Forall_impl; [|exact A]. simpl. intros s Hs.
  destruct (is_edited target (cat s)); [exact Hs|].
  destruct (_ =? 0); [exact Hs|]. simpl. unfold proportional. lia.
Qed.



End Rebalanced.



(** X7.  Rebalancing touches percentages only: the array of line 151 has the
    same categories in the same order, each with its id, name and amount. *)
Theorem rebalance_keeps_identity (target : string) (p : Z)
    (cs : list BudgetCategory) :
  map (fun s => (id (cat s), name (cat s), amount (cat s)))
      (rebalance target p cs)
  = map (fun c => (id c, name c, amount c)) cs
  /\ List.length (rebalance target p cs) = List.length cs.
Proof.
  assert (H : map (fun s => (id (cat s), name (cat s), amount (cat s)))
                  (rebalance target p cs)
              = map (fun c => (id c, name c, amount c)) cs).
  { unfold rebalance.
    now rewrite fixResidual_fields, adjustOthers_fields,
      assignPercentage_fields. }
  split; [exact H|].
  apply (f_equal (@List.length _)) in H. now rewrite !List.length_map in H.
Qed.

(** X8.  When the categories include one with another id, every category
    with the edited id ends with exactly the requested percentage: the
    proportional pass and the residual go to the others. *)
Theorem rebalance_edited_gets_request (target : string) (p : Z)
    (cs : list BudgetCategory) :
  Exists (fun c => is_edited target c = false) cs ->
  Forall (fun s => is_edited target (cat s) = true -> percentage (cat s) = p)
         (rebalance target p cs).
Proof.
  intro Hother. unfold rebalance.
  pose proof (adjustOthers_request target p _
                (assignPercentage_request target p cs)) as K.
  pose proof (adjustOthers_other target p cs Hother) as O.
  unfold fixResidual. destruct (_ =? 100); [exact K|].
  destruct (bumpFirstOther target _ _) as [l'|] eqn:B.
  - exact (bumpFirstOther_request _ _ _ _ _ K B).
  - exfalso. exact (bumpFirstOther_finds _ _ _ O B).
Qed.

Lemma rebalance_edited_gets_request_witness :
  Exists (fun c => is_edited "1" c = false) seed
  /\ Forall (fun s => is_edited "1" (cat s) = true -> percentage (cat s) = 42)
            (rebalance "1" 42 seed).
Proof.
  assert (H : Exists (fun c => is_edited "1" c = false) seed).
  { apply Exists_cons_tl, Exists_cons_hd. reflexivity. }
  split; [exact H|]. exact (rebalance_edited_gets_request "1" 42 seed H).
Defined.

(** X9.  With a single category, which is the edited one, the request is
    overridden: the residual falls back on the edited category itself and
    the array holds 100, for every request of at most 2^52 in magnitude
    (where the sum of line 147 is exact in doubles). *)
Theorem rebalance_single_category (target : string) (p : Z)
    (c : BudgetCategory) :
  is_edited target c = true -> Z.abs p <= 2 ^ 52 ->
  map cat (rebalance target p [c]) = [with_percentage c 100].
Proof.
  intros H _.
  assert (Hassign : assignPercentage target p [c]
                    = [mkSlot false (with_percentage c p)]).
  { unfold assignPercentage. simpl. now rewrite H. }
  assert (Htot : total_percentage
                   (map cat [mkSlot false (with_percentage c p)]) = p)
    by reflexivity.
  assert (Hadj : adjustOthers target [mkSlot false (with_percentage c p)]
                 = [mkSlot false (with_percentage c p)]).
  { unfold adjustOthers. rewrite Htot. destruct (p =? 100); [reflexivity|].
    cbn [map cat filter]. rewrite is_edited_with_percentage, H. reflexivity. }
  unfold rebalance. rewrite Hassign, Hadj.
  unfold fixResidual. rewrite Htot. destruct (p =? 100) eqn:E.
  - apply Z.eqb_eq in E. now subst p.
  - cbn [bumpFirstOther cat]. rewrite is_edited_with_percentage, H.
    cbn [option_map bumpFirstOther map].
    unfold bump, with_percentage. cbn [cat percentage id name amount].
    replace (p + (100 - p)) with 100 by lia. reflexivity.
Qed.

Lemma rebalance_single_category_witness :
  is_edited "1" (mkCategory "1" "Accommodation" 0 35) = true
  /\ Z.abs 20 <= 2 ^ 52
  /\ map cat (rebalance "1" 20 [mkCategory "1" "Accommodation" 0 35])
     = [with_percentage (mkCategory "1" "Accommodation" 0 35) 100].
Proof.
  assert (B : Z.abs 20 <= 2 ^ 52) by (vm_compute; discriminate).
  split; [reflexivity|]. split; [exact B|].
  exact (rebalance_single_category "1" 20
           (mkCategory "1" "Accommodation" 0 35) eq_refl B).
Defined.





(** X12.  From categories without a negative percentage and a request that
    is not negative, at most one category of the array of line 151 is
    negative: only the one that takes the residual can be. *)
Theorem rebalance_at_most_one_negative (target : string) (p : Z)
    (cs : list BudgetCategory) :
  Forall (fun c => 0 <= percentage c) cs -> 0 <= p ->
  (List.length (negatives (rebalance target p cs)) <= 1)%nat.
Proof.
  intros H Hp. unfold rebalance.
  pose proof (adjustOthers_nonnegative target p cs H Hp) as A.
  unfold fixResidual. destruct (_ =? 100).
  - rewrite (negatives_none _ A). simpl. lia.
  - destruct (bumpFirstOther target _ _) as [l'|] eqn:B.
    + exact (bumpFirstOther_negatives _ _ _ _ A B).
    + destruct A as [|s rest Hs Hrest]; [simpl; lia|].
      unfold negatives. simpl. fold (negatives rest).
      rewrite (negatives_none rest Hrest).
      destruct (_ <? 0); simpl; lia.
Qed.

Lemma rebalance_at_most_one_negative_witness :
  Forall (fun c => 0 <= percentage c)
         (map cat (rebalance "1" 0 seed))
  /\ 0 <= 65
  /\ (List.length
        (negatives (rebalance "2" 65 (map cat (rebalance "1" 0 seed))))
      <= 1)%nat.
Proof.
  assert (H : Forall (fun c => 0 <= percentage c)
                     (map cat (rebalance "1" 0 seed))).
  { apply nonnegative_Forall. reflexivity. }
  split; [exact H|]. split; [lia|].
  apply (rebalance_at_most_one_negative "2" 65 _ H). lia.
Defined.

(** ** The plan button *)

Lemma totalBudgetUSD_INR_quotient (b : Z) (d : Z) (cs : list BudgetCategory) :
  totalBudgetUSD (mkState b d INR cs) = (200 * b + 8314) / 16628.
Proof.
  unfold totalBudgetUSD. simpl currency. simpl totalBudget.
  replace (200 * b + 8314) with (b * 100 * 2 + 8314) by ring.
  reflexivity.
Qed.

(** X13.  The plan button does nothing when the stored budget is 0 or the
    location is empty, and otherwise picks the list by the budget alone:
    in USD low below 1000, high from 3000; in INR, after the division by
    83.14 and the rounding, low up to 83098 rupees and high from 249379.
    A negative budget passes the guard and is low. *)
Theorem plan_level_boundaries (b d : Z) (c : CurrencyCode)
    (cs : list BudgetCategory) (location : string) :
  (planLevel (mkState b d c cs) location = None
   <-> b = 0 \/ location = EmptyString)
  /\ (budgetLevel (mkState b d USD cs) = LowBudget <-> b < 1000)
  /\ (budgetLevel (mkState b d USD cs) = HighBudget <-> 3000 <= b)
  /\ (budgetLevel (mkState b d INR cs) = LowBudget <-> b <= 83098)
  /\ (budgetLevel (mkState b d INR cs) = HighBudget <-> 249379 <= b).
Proof.
  split.
  - unfold planLevel. simpl. destruct (b =? 0) eqn:E.
    + apply Z.eqb_eq in E. tauto.
    + apply Z.eqb_neq in E. destruct location; split; intro H;
        try discriminate; try tauto.
      destruct H as [H|H]; [contradiction|discriminate].
  - assert (K : forall u,
               ((if u <? 1000 then LowBudget
                 else if u <? 3000 then MediumBudget else HighBudget)
                = LowBudget <-> u < 1000)
               /\ ((if u <? 1000 then LowBudget
                    else if u <? 3000 then MediumBudget else HighBudget)
                   = HighBudget <-> 3000 <= u)).
    { intro u. destruct (u <? 1000) eqn:E1; destruct (u <? 3000) eqn:E2;
        try apply Z.ltb_lt in E1; try apply Z.ltb_ge in E1;
        try apply Z.ltb_lt in E2; try apply Z.ltb_ge in E2;
        split; split; intro H; try discriminate; try reflexivity; lia. }
    unfold budgetLevel. rewrite !totalBudgetUSD_INR_quotient.
    simpl totalBudgetUSD.
    pose proof (K b) as [K1 K2].
    pose proof (K ((200 * b + 8314) / 16628)) as [K3 K4].
    repeat split; try apply K1; try apply K2; intro H.
    + apply K3 in H. Z.div_mod_to_equations. lia.
    + apply K3. Z.div_mod_to_equations. lia.
    + apply K4 in H. Z.div_mod_to_equations. lia.
    + apply K4. Z.div_mod_to_equations. lia.
Qed.

(** ** Suggested places *)

Lemma affordablePriceLevel_cases (st : State) :
  affordablePriceLevel st = 1 \/ affordablePriceLevel st = 2
  \/ affordablePriceLevel st = 3.
Proof.
  unfold affordablePriceLevel.
  repeat match goal with
         | |- context [if ?b then _ else _] => destruct b
         end; auto.
Qed.

(** X14.  Whatever the budget, a place that the request filter keeps comes
    from the response and has no price level or one of at most 3;
    a place priced 4 or more is never suggested. *)
Theorem filtered_places_bounded (st : State) (attractions : list Place)
    (place : Place) :
  In place (filteredPlaces st attractions) ->
  In place attractions
  /\ (price_level place = None
      \/ exists v, price_level place = Some v
                   /\ v <= affordablePriceLevel st <= 3)
  /\ (forall v, price_level place = Some v -> v < 4).
Proof.
  unfold filteredPlaces. intro H. apply filter_In in H. destruct H as [Hin Hk].
  pose proof (affordablePriceLevel_cases st) as L.
  unfold isAffordable in Hk. apply Z.leb_le in Hk.
  split; [exact Hin|]. split.
  - destruct (price_level place) as [v|]; [right|left; reflexivity].
    exists v. split; [reflexivity|]. lia.
  - intros v Hv. rewrite Hv in Hk. lia.
Qed.

Lemma filtered_places_bounded_witness :
  In (mkPlace "p2" "Harbour" "Landmark" (4 # 1) "Boat trip" "about:blank"
        (Some 1) None)
     (filteredPlaces initial
        [ mkPlace "p1" "Palace" "Landmark" (5 # 1) "State rooms" "about:blank"
            (Some 4) None;
          mkPlace "p2" "Harbour" "Landmark" (4 # 1) "Boat trip" "about:blank"
            (Some 1) None ])
  /\ forall v, Some 1 = Some v -> v < 4.
Proof.
  assert (H : In (mkPlace "p2" "Harbour" "Landmark" (4 # 1) "Boat trip"
                    "about:blank" (Some 1) None)
                 (filteredPlaces initial
                    [ mkPlace "p1" "Palace" "Landmark" (5 # 1) "State rooms"
                        "about:blank" (Some 4) None;
                      mkPlace "p2" "Harbour" "Landmark" (4 # 1) "Boat trip"
                        "about:blank" (Some 1) None ])).
  { left. reflexivity. }
  split; [exact H|].
  exact (proj2 (proj2 (filtered_places_bounded initial _ _ H))).
Defined.

(** X15.  When the request fails, the stored suggestions are the first
    [affordablePriceLevel + 1] of the four samples: always the free historic
    centre and the museum, the gardens from level 2, the cultural experience
    at level 3; the list is never empty.  An empty destination stores
    nothing. *)
Theorem fallback_places_by_level (st : State) (destination : string) :
  generateFallbackPlaces st destination
  = firstn (Z.to_nat (affordablePriceLevel st + 1))
           (samplePlaces st destination)
  /\ (2 <= List.length (generateFallbackPlaces st destination) <= 4)%nat
  /\ fetchSuggestedPlaces st EmptyString RequestFailed = None
  /\ (destination <> EmptyString ->
      fetchSuggestedPlaces st destination RequestFailed
      = Some (generateFallbackPlaces st destination)).
Proof.
  assert (H : generateFallbackPlaces st destination
              = firstn (Z.to_nat (affordablePriceLevel st + 1))
                       (samplePlaces st destination)).
  { unfold generateFallbackPlaces, samplePlaces, isAffordableSample.
    cbn [filter price_level].
    destruct (affordablePriceLevel_cases st) as [-> | [-> | ->]]; reflexivity. }
  split; [exact H|]. split; [|split].
  - rewrite H.
    destruct (affordablePriceLevel_cases st) as [-> | [-> | ->]]; simpl; lia.
  - reflexivity.
  - intro Hd. destruct destination; [contradiction|reflexivity].
Qed.

(** X16.  A suggested place kept by the request filter that has a price
    level of 0 or more always gets a real price line: Free, or one to three
    currency signs; never the four-sign label and never Not available. *)
Theorem kept_places_price_line (st : State) (attractions : list Place)
    (place : Place) (v : Z) :
  In place (filteredPlaces st attractions) ->
  price_level place = Some v -> 0 <= v ->
  exists label,
    priceLine st place = Some label
    /\ In label
         match currency st with
         | INR => ["Free"; "₹"; "₹₹"; "₹₹₹"]%string
         | USD => ["Free"; "$"; "$$"; "$$$"]%string
         end.
Proof.
  intros Hin Hv H0.
  unfold filteredPlaces in Hin. apply filter_In in Hin.
  destruct Hin as [_ Hk]. unfold isAffordable in Hk. rewrite Hv in Hk.
  apply Z.leb_le in Hk.
  pose proof (affordablePriceLevel_cases st) as L.
  unfold priceLine, formatPriceLevel. rewrite Hv.
  assert (C : v = 0 \/ v = 1 \/ v = 2 \/ v = 3) by lia.
  destruct C as [-> | [-> | [-> | ->]]]; destruct (currency st);
    eexists; (split; [reflexivity|simpl; auto 10]).
Qed.

Lemma kept_places_price_line_witness :
  exists label,
    priceLine initial
      (mkPlace "p2" "Harbour" "Landmark" (4 # 1) "Boat trip" "about:blank"
         (Some 1) None)
    = Some label
    /\ In label ["Free"; "$"; "$$"; "$$$"]%string.
Proof.
  apply (kept_places_price_line initial
           [ mkPlace "p2" "Harbour" "Landmark" (4 # 1) "Boat trip"
               "about:blank" (Some 1) None ]
           _ 1); [left; reflexivity|reflexivity|lia].
Defined.

(** ** Budget levels in order *)

Lemma Qltb_le_trans (x y : Q) (k : Z) :
  (x <= y)%Q -> Qltb y (inject_Z k) = true -> Qltb x (inject_Z k) = true.
Proof.
  intros Hxy H. apply Qltb_lt in H. apply Qltb_lt.
  eapply Qle_lt_trans; eassumption.
Qed.

Lemma Qgtb_le_trans (x y : Q) (k : Z) :
  (x <= y)%Q -> Qltb (inject_Z k) x = true -> Qltb (inject_Z k) y = true.
Proof.
  intros Hxy H. apply Qltb_lt in H. apply Qltb_lt.
  eapply Qlt_le_trans; eassumption.
Qed.

Lemma Qdiv_le_positive (x y : Q) (d : Z) :
  0 < d -> (x <= y)%Q -> (x / inject_Z d <= y / inject_Z d)%Q.
Proof.
  intros Hd Hxy. unfold Qdiv. apply Qmult_le_compat_r; [exact Hxy|].
  apply Qinv_le_0_compat. change 0%Q with (inject_Z 0).
  rewrite <- Zle_Qle. lia.
Qed.

Lemma amountUSD_le (c : CurrencyCode) (a b : Z) :
  a <= b ->
  (match c with
   | INR => inject_Z a / exchangeRates_INR
   | USD => inject_Z a
   end
   <= match c with
      | INR => inject_Z b / exchangeRates_INR
      | USD => inject_Z b
      end)%Q.
Proof.
  intro H. destruct c.
  - now rewrite <- Zle_Qle.
  - unfold Qdiv. apply Qmult_le_compat_r; [now rewrite <- Zle_Qle|].
    discriminate.
Qed.

Lemma text_Budget (st : State) (a : Z) (category : string) :
  text (getBudgetLevelIndicator st a category) = "Budget"%string
  <-> ltb (dailyAmount st a) (low (thresholdsFor category)) = true.
Proof.
  unfold getBudgetLevelIndicator.
  destruct (ltb (dailyAmount st a) (low (thresholdsFor category))).
  - simpl. tauto.
  - destruct (gtb (dailyAmount st a) (high (thresholdsFor category)));
      simpl; split; intro H; discriminate H.
Qed.

Lemma text_Luxury (st : State) (a : Z) (category : string) :
  text (getBudgetLevelIndicator st a category) = "Luxury"%string
  <-> gtb (dailyAmount st a) (high (thresholdsFor category)) = true.
Proof.
  unfold getBudgetLevelIndicator.
  destruct (ltb (dailyAmount st a) (low (thresholdsFor category))) eqn:E.
  - rewrite (below_not_above _ _ _ (thresholds_ordered category) E).
    simpl. split; intro H; discriminate H.
  - destruct (gtb (dailyAmount st a) (high (thresholdsFor category)));
      simpl; split; intro H; try discriminate H; reflexivity.
Qed.

(** X17.  With a positive duration the budget level follows the amount: if
    an amount is labelled Budget so is every smaller one, and if an amount
    is labelled Luxury so is every larger one, for every category name and
    in either currency. *)
Theorem budget_level_monotone (st : State) (a b : Z) (category : string) :
  0 < duration st -> a <= b ->
  (text (getBudgetLevelIndicator st b category) = "Budget"%string ->
   text (getBudgetLevelIndicator st a category) = "Budget"%string)
  /\ (text (getBudgetLevelIndicator st a category) = "Luxury"%string ->
      text (getBudgetLevelIndicator st b category) = "Luxury"%string).
Proof.
  intros Hd Hab. rewrite !text_Budget, !text_Luxury.
  unfold dailyAmount, div.
  assert (E : (duration st =? 0) = false) by (apply Z.eqb_neq; lia).
  rewrite E. simpl ltb. simpl gtb.
  pose proof (Qdiv_le_positive _ _ _ Hd (amountUSD_le (currency st) a b Hab))
    as Hq.
  split; intro H.
  - exact (Qltb_le_trans _ _ _ Hq H).
  - exact (Qgtb_le_trans _ _ _ Hq H).
Qed.

Lemma budget_level_monotone_witness :
  0 < 7 /\ 280 <= 300
  /\ text (getBudgetLevelIndicator (mkState 1000 7 USD seed) 280
             "Accommodation")
     = "Budget"%string.
Proof.
  split; [lia|]. split; [lia|].
  apply (proj1 (budget_level_monotone (mkState 1000 7 USD seed) 280 300
                  "Accommodation" ltac:(simpl; lia) ltac:(lia))).
  reflexivity.
Defined.

(** ** The location explorer *)

Module LocationExplorerFacts.

Import LocationExplorer.

Lemma lower_lower (c : ascii) : lower (lower c) = lower c.
Proof. destruct c as [[] [] [] [] [] [] [] []]; reflexivity. Qed.

Lemma isSpace_lower (c : ascii) : isSpace (lower c) = isSpace c.
Proof. destruct c as [[] [] [] [] [] [] [] []]; reflexivity. Qed.

Lemma toLowerCase_app (a b : string) :
  toLowerCase (a ++ b) = (toLowerCase a ++ toLowerCase b)%string.
Proof. induction a as [|c a IH]; simpl; [reflexivity|now rewrite IH]. Qed.

Lemma removeSpaces_app (a b : string) :
  removeSpaces (a ++ b) = (removeSpaces a ++ removeSpaces b)%string.
Proof.
  induction a as [|c a IH]; simpl; [reflexivity|].
  destruct (isSpace c); simpl; now rewrite IH.
Qed.

Lemma toLowerCase_idempotent (s : string) :
  toLowerCase (toLowerCase s) = toLowerCase s.
Proof.
  induction s as [|c s IH]; simpl; [reflexivity|].
  now rewrite lower_lower, IH.
Qed.

Lemma removeSpaces_idempotent (s : string) :
  removeSpaces (removeSpaces s) = removeSpaces s.
Proof.
  induction s as [|c s IH]; simpl; [reflexivity|].
  destruct (isSpace c) eqn:E; simpl; [exact IH|]. now rewrite E, IH.
Qed.

Lemma toLowerCase_removeSpaces (s : string) :
  toLowerCase (removeSpaces s) = removeSpaces (toLowerCase s).
Proof.
  induction s as [|c s IH]; simpl; [reflexivity|].
  rewrite isSpace_lower. destruct (isSpace c); simpl; now rewrite IH.
Qed.

Lemma normalize_blank (s : string) :
  isBlank s = true <-> normalize s = EmptyString.
Proof.
  unfold normalize. induction s as [|c s IH]; simpl; [tauto|].
  rewrite isSpace_lower. destruct (isSpace c); simpl.
  - exact IH.
  - split; intro H; discriminate H.
Qed.

(** X18.  The key under which the sample data is looked up ignores letter
    case and white space wherever they stand in the typed location: the key
    of a text in two parts is the two keys joined, a white-space character
    between the parts changes nothing, and a key is its own key; New York
    in four spellings gives newyork. *)
Theorem normalize_ignores_case_and_spaces (a b : string) (c : ascii) :
  ascii_only a = true -> ascii_only b = true -> isSpace c = true ->
  normalize (a ++ b) = (normalize a ++ normalize b)%string
  /\ normalize (a ++ String c b) = normalize (a ++ b)
  /\ normalize (normalize a) = normalize a
  /\ map normalize ["New York"; " new  YORK "; "NEWYORK"; "newyork"]%string
     = ["newyork"; "newyork"; "newyork"; "newyork"]%string.
Proof.
  intros _ _ Hc. unfold normalize. repeat split.
  - now rewrite toLowerCase_app, removeSpaces_app.
  - rewrite !toLowerCase_app, !removeSpaces_app. simpl.
    now rewrite isSpace_lower, Hc.
  - now rewrite toLowerCase_removeSpaces, toLowerCase_idempotent,
      removeSpaces_idempotent.
Qed.

Lemma normalize_ignores_case_and_spaces_witness :
  normalize ("New" ++ String " " "York") = normalize ("New" ++ "York").
Proof.
  exact (proj1 (proj2 (normalize_ignores_case_and_spaces "New" "York" " "
                         eq_refl eq_refl eq_refl))).
Defined.

(** X19.  When the request fails, a location typed in ASCII whose key is
    neither [constructor] nor [__proto__] always gets a list of places: the
    two of Paris, Tokyo or New York when the key is one of theirs, else
    three generic ones named after the location; each has a price level from
    0 to 4, for which [formatPriceLevel] has a label, the cost level is
    Moderate and the destination is the text as it was typed.  For the key
    [constructor] ([Constructor] typed, say) the places stay what they were,
    and for [__proto__] an object that is no array is stored. *)
Theorem fallback_data_places (locationName : string) :
  ascii_only locationName = true ->
  normalize locationName <> "constructor"%string ->
  normalize locationName <> "__proto__"%string ->
  (exists l,
     places (generateFallbackData locationName) = PlaceList l
     /\ (2 <= List.length l <= 3)%nat
     /\ Forall (fun p =>
                  (exists v, price_level p = Some v /\ 0 <= v <= 4)
                  /\ formatPriceLevel (price_level p)
                     <> "Not available"%string)
               l)
  /\ costLevel (generateFallbackData locationName) = "Moderate"%string
  /\ destinationInfo (generateFallbackData locationName) = locationName
  /\ places (generateFallbackData "Constructor") = Previous
  /\ places (generateFallbackData "__proto__") = NotAnArray.
Proof.
  intros _ Hc Hp. split; [|repeat split].
  apply String.eqb_neq in Hc, Hp.
  unfold generateFallbackData. cbn [places]. rewrite Hc, Hp.
  unfold mockPlacesData. cbn [ownProperty].
  repeat match goal with
         | |- context [String.eqb ?k (normalize locationName)] =>
             destruct (String.eqb k (normalize locationName))
         end;
    eexists; (split; [reflexivity|]); (split; [simpl; lia|]);
    repeat constructor;
    first [discriminate | eexists; (split; [reflexivity|lia])].
Qed.

Lemma fallback_data_places_witness :
  ascii_only " new  YORK " = true
  /\ places (generateFallbackData " new  YORK ")
     = PlaceList
         match ownProperty "newyork" mockPlacesData with
         | Some l => l
         | None => []
         end
  /\ costLevel (generateFallbackData " new  YORK ") = "Moderate"%string.
Proof.
  split; [reflexivity|]. split; [reflexivity|].
  exact (proj1 (proj2 (fallback_data_places " new  YORK " eq_refl
                         ltac:(discriminate) ltac:(discriminate)))).
Defined.

(** X20.  A search returns at its guard exactly when the typed location has
    an empty key, that is when it is empty or all white space; so a search
    that reaches the sample data never looks up the empty key, and a
    successful request stores the attractions as they come, without
    filtering. *)
Theorem search_guard (location : string) (r : outcome) :
  ascii_only location = true ->
  (handleSearch location r = None <-> normalize location = EmptyString)
  /\ (normalize location <> EmptyString ->
      handleSearch location Caught = Some (generateFallbackData location))
  /\ (forall attractions destinationName averageCost,
        normalize location <> EmptyString ->
        option_map places
          (handleSearch location (Loaded attractions destinationName averageCost))
        = Some (PlaceList attractions)).
Proof.
  intros _. pose proof (normalize_blank location) as B.
  unfold handleSearch. destruct (isBlank location).
  - assert (E : normalize location = EmptyString) by now apply B.
    repeat split; try tauto; intros; contradiction.
  - assert (E : normalize location <> EmptyString).
    { intro E. apply B in E. discriminate E. }
    repeat split; try reflexivity; intro H; try discriminate H; contradiction.
Qed.

Lemma search_guard_witness :
  ascii_only "Goa" = true
  /\ handleSearch "Goa" Caught = Some (generateFallbackData "Goa").
Proof.
  split; [reflexivity|].
  apply (proj1 (proj2 (search_guard "Goa" Caught eq_refl))). discriminate.
Defined.

End LocationExplorerFacts.

(** ** More budget, no fewer places *)

Lemma Math_round_le (x y : Q) : (x <= y)%Q -> Math_round x <= Math_round y.
Proof.
  intro H. unfold Math_round. apply Qfloor_resp_le.
  now apply Qplus_le_l.
Qed.

Lemma ltb_integer (r k : Z) : ltb (Fin (inject_Z r)) k = (r <? k).
Proof.
  simpl. destruct (r <? k) eqn:E.
  - apply Qltb_lt. rewrite <- Zlt_Qlt. now apply Z.ltb_lt.
  - apply not_true_iff_false. intro H. apply Qltb_lt in H.
    rewrite <- Zlt_Qlt in H. apply Z.ltb_ge in E. lia.
Qed.

Lemma level_steps (u1 u2 : Z) :
  u1 <= u2 ->
  (if u1 <? 30 then 1 else if u1 <? 60 then 2 else 3)
  <= (if u2 <? 30 then 1 else if u2 <? 60 then 2 else 3).
Proof.
  intro H.
  destruct (u1 <? 30) eqn:A1; destruct (u1 <? 60) eqn:A2;
    destruct (u2 <? 30) eqn:B1; destruct (u2 <? 60) eqn:B2;
    try apply Z.ltb_lt in A1; try apply Z.ltb_ge in A1;
    try apply Z.ltb_lt in A2; try apply Z.ltb_ge in A2;
    try apply Z.ltb_lt in B1; try apply Z.ltb_ge in B1;
    try apply Z.ltb_lt in B2; try apply Z.ltb_ge in B2; lia.
Qed.

Lemma affordablePriceLevel_steps (st : State) :
  duration st <> 0 ->
  affordablePriceLevel st
  = let daily :=
      Math_round (inject_Z (activitiesBudget st) / inject_Z (duration st)) in
    let usd :=
      match currency st with
      | INR => Math_round (inject_Z daily / exchangeRates_INR)
      | USD => daily
      end in
    if usd <? 30 then 1 else if usd <? 60 then 2 else 3.
Proof.
  intro Hd. unfold affordablePriceLevel, div.
  apply Z.eqb_neq in Hd. rewrite Hd.
  destruct (currency st); cbn [round div_const]; now rewrite !ltb_integer.
Qed.

(** X21.  With the duration (positive) and the currency the same, a larger
    activities budget never lowers the affordable price level, so every
    place that the request filter keeps with the smaller budget it also
    keeps with the larger one. *)
Theorem more_budget_keeps_places (st1 st2 : State) :
  0 < duration st1 -> duration st2 = duration st1 ->
  currency st2 = currency st1 ->
  activitiesBudget st1 <= activitiesBudget st2 ->
  affordablePriceLevel st1 <= affordablePriceLevel st2
  /\ forall attractions place,
       In place (filteredPlaces st1 attractions) ->
       In place (filteredPlaces st2 attractions).
Proof.
  intros Hd Ed Ec Hab.
  assert (L : affordablePriceLevel st1 <= affordablePriceLevel st2).
  { rewrite !affordablePriceLevel_steps by lia. rewrite Ed, Ec.
    cbv zeta.
    assert (D : Math_round (inject_Z (activitiesBudget st1)
                            / inject_Z (duration st1))
                <= Math_round (inject_Z (activitiesBudget st2)
                               / inject_Z (duration st1))).
    { apply Math_round_le, Qdiv_le_positive; [exact Hd|].
      now rewrite <- Zle_Qle. }
    apply level_steps. destruct (currency st1); [exact D|].
    apply Math_round_le. unfold Qdiv.
    apply Qmult_le_compat_r; [now rewrite <- Zle_Qle|discriminate]. }
  split; [exact L|].
  intros attractions place H. unfold filteredPlaces in *.
  apply filter_In in H. destruct H as [Hin Hk]. apply filter_In.
  split; [exact Hin|]. unfold isAffordable in *.
  apply Z.leb_le in Hk. apply Z.leb_le. lia.
Qed.

Lemma more_budget_keeps_places_witness :
  affordablePriceLevel (run initial [BudgetChange (Some 1000)])
  <= affordablePriceLevel (run initial [BudgetChange (Some 3000)]).
Proof.
  apply (proj1 (more_budget_keeps_places
                  (run initial [BudgetChange (Some 1000)])
                  (run initial [BudgetChange (Some 3000)])
                  ltac:(simpl; lia) eq_refl eq_refl
                  ltac:(vm_compute; discriminate))).
Defined.
